(** * Spyder: scroll flag panel and qtconsole shell widget

    A shallow embedding of
    - [spyder/widgets/panels/scrollflag.py] (class [ScrollFlagArea]) and
    - [spyder/widgets/jupyter_qtconsole/shell.py] (class [ShellWidget]).

    Numbers.  The Qt getters [minimum()], [maximum()], [pageStep()],
    [QRect.y()], [QRect.height()] and [QPoint.y()] return Python ints: [Z].
    [get_scrollbar_position_height] converts to [float]; every quantity
    derived from it is a Python float.  Floats are idealised as exact
    rationals [Q]: the development is about the algebra of the mappings and
    not about binary rounding.  A Python division whose divisor is zero
    raises [ZeroDivisionError]; the embedding keeps that as a result value.

    The arguments the code hands to the [QRect] constructor are recorded as
    they are computed; the conversion to C ints done by the binding is not
    part of the model.  [FLAGS_DX/2] and [FLAGS_DY/2] are 2 and 1 under
    Python 2's integer division and under Python 3's true division alike. *)

From Stdlib Require Import ZArith QArith Qfield Lqa Lia List Bool String.
From Stdlib Require Import Ascii DecimalString.
Import ListNotations.

Set Implicit Arguments.

Local Open Scope Q_scope.

(** ** Python exceptions and results *)

Inductive exn : Type :=
| ZeroDivisionError.

Inductive result (A : Type) : Type :=
| Ok (a : A)
| Raise (e : exn).

Arguments Ok {A} a.
Arguments Raise {A} e.

Definition bind {A B : Type} (m : result A) (k : A -> result B) : result B :=
  match m with
  | Ok a => k a
  | Raise e => Raise e
  end.

Notation "x <- m ;; k" := (bind m (fun x => k))
  (at level 61, m at next level, right associativity).

(** Python's [/] on a float operand. *)
Definition py_div (a b : Q) : result Q :=
  if Qeq_bool b 0 then Raise ZeroDivisionError else Ok (a / b).

(** Python's two-element [max] and [min]: the first element is kept unless
    the second is strictly larger (resp. smaller). *)
Definition py_max (a b : Q) : Q :=
  match b ?= a with Gt => b | _ => a end.

Definition py_min (a b : Q) : Q :=
  match b ?= a with Lt => b | _ => a end.

(** ** Qt geometry *)

(** [QRect(x, y, w, h)] with the arguments as the code computes them. *)
Record QRect : Type := mkQRect {
  rect_x : Q;
  rect_y : Q;
  rect_width : Q;
  rect_height : Q
}.

(** Vertical centre of a rectangle given by top and height. *)
Definition rect_center_y (r : QRect) : Q := rect_y r + rect_height r / 2.

Record QPoint : Type := mkQPoint {
  point_x : Z;
  point_y : Z
}.

Record QPointF : Type := mkQPointF {
  pointf_x : Q;
  pointf_y : Q
}.

Record QRectF : Type := mkQRectF {
  rectf_x : Q;
  rectf_y : Q;
  rectf_width : Q;
  rectf_height : Q
}.

(** [QRectF.translated(offset)], [QRectF.top()]. *)
Definition translated (r : QRectF) (o : QPointF) : QRectF :=
  mkQRectF (rectf_x r + pointf_x o) (rectf_y r + pointf_y o)
           (rectf_width r) (rectf_height r).

Definition top (r : QRectF) : Q := rectf_y r.

(** ** The editor, as the panel sees it *)

(** The vertical scrollbar.  [groove_y] and [groove_height] are the [y()]
    and [height()] of [style.subControlRect(QStyle.CC_ScrollBar, opt,
    QStyle.SC_ScrollBarGroove, self)], the area in which the slider handle
    may move. *)
Record ScrollBar : Type := mkScrollBar {
  minimum : Z;
  maximum : Z;
  pageStep : Z;
  isVisible : bool;
  groove_y : Z;
  groove_height : Z
}.

(** The user data of a text block.  The class is declared elsewhere in
    Spyder; the panel only tests [todo] and [breakpoint] for truth and
    iterates over [code_analysis], a list of (message, error) pairs. *)
Record BlockUserData : Type := mkBlockUserData {
  code_analysis : list (string * bool);
  todo : bool;
  breakpoint : bool
}.

(** A text block is referred to by its block number; a number outside the
    document stands for Qt's invalid block. *)
Definition QTextBlock : Type := Z.

(** The color properties of the editor that the panel reads. *)
Inductive EditorColor : Type :=
| sideareas_color
| warning_color
| error_color
| todo_color
| breakpoint_color
| occurrence_color
| found_results_color.

Record Editor : Type := mkEditor {
  verticalScrollBar : ScrollBar;
  (** [userData()] of the blocks of [document()], first block first *)
  blocks : list (option BlockUserData);
  blockBoundingGeometry : QTextBlock -> QRectF;
  blockBoundingRect : QTextBlock -> QRectF;
  contentOffset : QPointF;
  occurrences : list Z;
  found_results : list Z
}.

Definition blockCount (ed : Editor) : nat := List.length (blocks ed).

Definition findBlockByLineNumber (ed : Editor) (value : Z) : QTextBlock := value.

(** ** The painter *)

Inductive QColor : Type :=
| EditorQColor (c : EditorColor)
| Darker (c : QColor) (factor : Z)
| GrayAlpha (alpha : Q).

Inductive PaintOp : Type :=
| FillRect (r : QRect) (c : QColor)
| DrawRect (pen brush : option QColor) (r : QRect).

(** A [QPainter]: the current pen and brush ([None] is Qt's default) and
    the operations issued so far, oldest first. *)
Record QPainter : Type := mkQPainter {
  pen : option QColor;
  brush : option QColor;
  ops : list PaintOp
}.

Definition new_painter : QPainter := mkQPainter None None [].

Definition fillRect (p : QPainter) (r : QRect) (c : QColor) : QPainter :=
  mkQPainter (pen p) (brush p) (ops p ++ [FillRect r c]).

Definition setPen (p : QPainter) (c : QColor) : QPainter :=
  mkQPainter (Some c) (brush p) (ops p).

Definition setBrush (p : QPainter) (c : QColor) : QPainter :=
  mkQPainter (pen p) (Some c) (ops p).

Definition drawRect (p : QPainter) (r : QRect) : QPainter :=
  mkQPainter (pen p) (brush p) (ops p ++ [DrawRect (pen p) (brush p) r]).

(** ** [ScrollFlagArea] *)

(** Class constants. *)
Definition WIDTH : Z := 12.
Definition FLAGS_DX : Z := 4.
Definition FLAGS_DY : Z := 2.

(** The panel holds its editor; [area_width] and [area_height] give
    [self.rect()], which is [QRect(0, 0, width, height)]. *)
Record ScrollFlagArea : Type := mkScrollFlagArea {
  editor : Editor;
  area_width : Z;
  area_height : Z
}.

(** What a repaint reads from the toolkit: the rectangle of the event, the
    Alt modifier and the cursor position mapped to the panel. *)
Record PaintInput : Type := mkPaintInput {
  event_rect : QRect;
  alt : bool;
  cursor_pos : QPoint
}.

(** [self.rect().contains(pos)] *)
Definition rect_contains (self : ScrollFlagArea) (pos : QPoint) : bool :=
  ((0 <=? point_x pos) && (point_x pos <? area_width self) &&
   (0 <=? point_y pos) && (point_y pos <? area_height self))%Z.

(** The [slider] property. *)
Definition slider (self : ScrollFlagArea) : bool :=
  isVisible (verticalScrollBar (editor self)).

(** The [offset] property. *)
Definition offset (self : ScrollFlagArea) : Z :=
  groove_y (verticalScrollBar (editor self)).

Definition get_scrollbar_position_height (self : ScrollFlagArea) : Q :=
  inject_Z (groove_height (verticalScrollBar (editor self))).

Definition get_scrollbar_value_height (self : ScrollFlagArea) : Z :=
  let vsb := verticalScrollBar (editor self) in
  (maximum vsb - minimum vsb + pageStep vsb)%Z.

Definition get_scale_factor (self : ScrollFlagArea) : result Q :=
  py_div (get_scrollbar_position_height self)
         (inject_Z (get_scrollbar_value_height self)).

Definition value_to_position (self : ScrollFlagArea) (y : Q) : result Q :=
  let vsb := verticalScrollBar (editor self) in
  s <- get_scale_factor self ;;
  Ok ((y - inject_Z (minimum vsb)) * s + inject_Z (offset self)).

Definition position_to_value (self : ScrollFlagArea) (y : Q) : result Q :=
  let vsb := verticalScrollBar (editor self) in
  s <- get_scale_factor self ;;
  q <- py_div (y - inject_Z (offset self)) s ;;
  Ok (inject_Z (minimum vsb) + py_max 0 q).

Definition make_flag_qrect (self : ScrollFlagArea) (value : Z) : result QRect :=
  if slider self then
    position <- value_to_position self (inject_Z value + 0.5) ;;
    Ok (mkQRect (inject_Z FLAGS_DX / 2)
                (position - inject_Z FLAGS_DY / 2)
                (inject_Z (WIDTH - FLAGS_DX))
                (inject_Z FLAGS_DY))
  else
    let block := findBlockByLineNumber (editor self) value in
    let top := top (translated (blockBoundingGeometry (editor self) block)
                               (contentOffset (editor self))) in
    let bottom := top + rectf_height (blockBoundingRect (editor self) block) in
    let middle := (top + bottom) / 2 in
    Ok (mkQRect (inject_Z FLAGS_DX / 2)
                (middle - inject_Z FLAGS_DY / 2)
                (inject_Z (WIDTH - FLAGS_DX))
                (inject_Z FLAGS_DY)).

Definition make_slider_range (self : ScrollFlagArea) (cursor_pos : QPoint)
  : result QRect :=
  let vsb := verticalScrollBar (editor self) in
  let groove_height := get_scrollbar_position_height self in
  slider_height <- value_to_position self (inject_Z (pageStep vsb)) ;;
  let min_ypos := inject_Z (offset self) in
  let max_ypos := groove_height + inject_Z (offset self) - slider_height in
  let slider_y :=
    py_max min_ypos
           (py_min max_ypos
                   (inject_Z (point_y cursor_pos) - slider_height / 2)) in
  Ok (mkQRect 1 slider_y (inject_Z (WIDTH - 2)) slider_height).

Definition set_painter (painter : QPainter) (light_color : EditorColor)
  : QPainter :=
  setBrush (setPen painter (Darker (EditorQColor light_color) 120))
           (EditorQColor light_color).

(** The inner loop of [paintEvent] over [data.code_analysis]: the color
    stays as it is until the first entry flagged as an error. *)
Fixpoint analysis_color (color : EditorColor) (l : list (string * bool))
  : EditorColor :=
  match l with
  | [] => color
  | (_message, error) :: l' =>
      if error then error_color else analysis_color color l'
  end.

(** One iteration of the loop over the blocks. *)
Definition paint_block (self : ScrollFlagArea) (painter : QPainter)
  (line_number : Z) (data : option BlockUserData) : result QPainter :=
  match data with
  | None => Ok painter
  | Some data =>
      p1 <- match code_analysis data with
            | [] => Ok painter
            | _ :: _ =>
                let color := analysis_color warning_color (code_analysis data) in
                let p := set_painter painter color in
                r <- make_flag_qrect self line_number ;;
                Ok (drawRect p r)
            end ;;
      p2 <- (if todo data then
               let p := set_painter p1 todo_color in
               r <- make_flag_qrect self line_number ;;
               Ok (drawRect p r)
             else Ok p1) ;;
      if breakpoint data then
        let p := set_painter p2 breakpoint_color in
        r <- make_flag_qrect self line_number ;;
        Ok (drawRect p r)
      else Ok p2
  end.

(** [block.userData()] and [block.next()], the block being given by the
    list of the blocks from it on; the empty list is the invalid block. *)
Definition userData (block : list (option BlockUserData))
  : option BlockUserData :=
  match block with
  | [] => None
  | data :: _ => data
  end.

Definition next (block : list (option BlockUserData))
  : list (option BlockUserData) := tl block.

(** [range(n)] *)
Definition range (n : nat) : list Z := map Z.of_nat (seq 0 n).

(** The loop [for line_number in ...: ...; block = block.next()]. *)
Fixpoint paint_blocks (self : ScrollFlagArea) (painter : QPainter)
  (line_numbers : list Z) (block : list (option BlockUserData))
  : result QPainter :=
  match line_numbers with
  | [] => Ok painter
  | line_number :: rest =>
      p <- paint_block self painter line_number (userData block) ;;
      paint_blocks self p rest (next block)
  end.

(** The loops [for line_number in ...: painter.drawRect(make_flag(...))]. *)
Fixpoint paint_lines (self : ScrollFlagArea) (painter : QPainter)
  (line_numbers : list Z) : result QPainter :=
  match line_numbers with
  | [] => Ok painter
  | line_number :: rest =>
      r <- make_flag_qrect self line_number ;;
      paint_lines self (drawRect painter r) rest
  end.

Definition paintEvent (self : ScrollFlagArea) (event : PaintInput)
  : result QPainter :=
  let ed := editor self in
  let painter := fillRect new_painter (event_rect event)
                          (EditorQColor sideareas_color) in
  p1 <- paint_blocks self painter (range (blockCount ed + 1)) (blocks ed) ;;
  p2 <- match occurrences ed with
        | [] => Ok p1
        | _ :: _ =>
            paint_lines self (set_painter p1 occurrence_color) (occurrences ed)
        end ;;
  p3 <- match found_results ed with
        | [] => Ok p2
        | _ :: _ =>
            paint_lines self (set_painter p2 found_results_color)
                        (found_results ed)
        end ;;
  if (rect_contains self (cursor_pos event) || alt event) && slider self then
    let p := setBrush (setPen p3 (GrayAlpha 0.85)) (GrayAlpha 0.5) in
    r <- make_slider_range self (cursor_pos event) ;;
    Ok (drawRect p r)
  else Ok p3.

(** ** [ShellWidget] *)

Module Shell.

(** A client is known by its identity. *)
Definition Client : Type := nat.

(** A slot connected to a signal: the bound method [exit_callback] of a
    client. *)
Inductive Slot : Type :=
| exit_callback (c : Client).

(** The standard buttons the confirmation dialog offers. *)
Inductive StandardButton : Type :=
| Yes
| No.

Definition StandardButton_eqb (a b : StandardButton) : bool :=
  match a, b with
  | Yes, Yes | No, No => true
  | _, _ => false
  end.

(** The part of the widget's state the public API touches: the bound
    client, the slots connected to [exit_requested] in connection order,
    and the sources handed to [execute], oldest first. *)
Record ShellWidget : Type := mkShellWidget {
  ipyclient : option Client;
  exit_requested : list Slot;
  executed : list string
}.

(** State after [__init__]. *)
Definition init : ShellWidget := mkShellWidget None [] [].

(** Qt's [Signal.connect]: the slot is added after those connected. *)
Definition connect (sig : list Slot) (s : Slot) : list Slot := sig ++ [s].

(** Qt's [Signal.emit]: every connected slot is invoked, in connection
    order; the result lists the invocations. *)
Definition emit (sig : list Slot) : list Slot := sig.

(** [execute] of the console widget: the source goes to the backend. *)
Definition execute (self : ShellWidget) (source : string) : ShellWidget :=
  mkShellWidget (ipyclient self) (exit_requested self)
                (executed self ++ [source]).

Definition set_ipyclient (self : ShellWidget) (client : Client) : ShellWidget :=
  mkShellWidget (Some client)
                (connect (exit_requested self) (exit_callback client))
                (executed self).

Definition clear_console (self : ShellWidget) : ShellWidget :=
  execute self "%clear".

(** [reply] is what [QMessageBox.question] returns. *)
Definition reset_namespace (self : ShellWidget) (reply : StandardButton)
  : ShellWidget :=
  if StandardButton_eqb reply Yes then execute self "%reset -f" else self.

End Shell.

(** ** Concrete panels used in the examples below *)

Definition empty_rectf : QRectF := mkQRectF 0 0 0 0.

(** An editor with an empty document around a given scrollbar. *)
Definition editor_of (vsb : ScrollBar) : Editor :=
  mkEditor vsb [] (fun _ => empty_rectf) (fun _ => empty_rectf)
           (mkQPointF 0 0) [] [].

Definition area_of (vsb : ScrollBar) : ScrollFlagArea :=
  mkScrollFlagArea (editor_of vsb) WIDTH 442.

(** A document of 100 lines of which 20 are visible; the groove is 500
    pixels high and starts 16 pixels below the top of the scrollbar. *)
Definition area_100_lines : ScrollFlagArea :=
  area_of (mkScrollBar 0 80 20 true 16 500).

(** A visible scrollbar whose value span is zero. *)
Definition area_zero_span : ScrollFlagArea :=
  area_of (mkScrollBar 0 0 0 true 16 500).

(** A document one line longer than the 40 lines on screen. *)
Definition area_41_lines : ScrollFlagArea :=
  area_of (mkScrollBar 0 1 40 true 16 410).

(** The panel with other values for the scrollbar's range and page step. *)
Definition set_scrollbar_range (self : ScrollFlagArea) (mn mx ps : Z)
  : ScrollFlagArea :=
  let ed := editor self in
  let vsb := verticalScrollBar ed in
  mkScrollFlagArea
    (mkEditor (mkScrollBar mn mx ps (isVisible vsb) (groove_y vsb)
                           (groove_height vsb))
              (blocks ed) (blockBoundingGeometry ed) (blockBoundingRect ed)
              (contentOffset ed) (occurrences ed) (found_results ed))
    (area_width self) (area_height self).

(** A document of three blocks of 17 pixels each that fits on screen, so
    the scrollbar is hidden; the contents start 4 pixels below the top.  The
    first line has a warning, an error, a todo and a breakpoint, the third
    a warning only. *)
Definition small_document : list (option BlockUserData) :=
  [ Some (mkBlockUserData [("unused import"%string, false);
                           ("undefined name"%string, true)] true true);
    None;
    Some (mkBlockUserData [("line too long"%string, false)] false false) ].

Definition area_small_document : ScrollFlagArea :=
  mkScrollFlagArea
    (mkEditor (mkScrollBar 0 0 3 false 16 410)
              small_document
              (fun block => mkQRectF 0 (17 * inject_Z block) 400 17)
              (fun block => mkQRectF 0 0 400 17)
              (mkQPointF 0 4) [] [2%Z])
    WIDTH 442.

(** [range(a, a + n)] *)
Definition range_from (a n : nat) : list Z := map Z.of_nat (seq a n).

(** The flags can be placed: the scrollbar is hidden, or the value span is
    not zero. *)
Definition can_paint (self : ScrollFlagArea) : Prop :=
  slider self = false \/ get_scrollbar_value_height self <> 0%Z.

(** A flag mark as [set_painter] followed by [drawRect] paints it. *)
Definition mark (c : EditorColor) (r : QRect) : PaintOp :=
  DrawRect (Some (Darker (EditorQColor c) 120)) (Some (EditorQColor c)) r.

(** ** [mousePressEvent]

    [vsb.pageStep()/2] divides two ints: Python 2 floors, Python 3 gives a
    float.  The module runs under both, so the interpreter is a parameter. *)

Inductive PyVersion : Type :=
| Python2
| Python3.

(** [a / b] on two ints. *)
Definition py_int_div (version : PyVersion) (a b : Z) : result Q :=
  if (b =? 0)%Z then Raise ZeroDivisionError
  else Ok match version with
          | Python2 => inject_Z (a / b)
          | Python3 => inject_Z a / inject_Z b
          end.

(** The result is the argument handed to [vsb.setValue]. *)
Definition mousePressEvent (version : PyVersion) (self : ScrollFlagArea)
  (event_pos : QPoint) : result Q :=
  let vsb := verticalScrollBar (editor self) in
  value <- position_to_value self (inject_Z (point_y event_pos)) ;;
  half <- py_int_div version (pageStep vsb) 2 ;;
  Ok (value - half).

(** ** What a repaint is expected to show

    The operations of [paintEvent] written as one list, to be compared with
    what the painter receives from the code above. *)

(** The rectangle of the flag of a line, when it can be computed. *)
Definition flag_rect (self : ScrollFlagArea) (L : Z) : QRect :=
  match make_flag_qrect self L with
  | Ok r => r
  | Raise _ => mkQRect 0 0 0 0
  end.

Definition expected_block_marks (self : ScrollFlagArea) (L : Z)
  (data : option BlockUserData) : list PaintOp :=
  match data with
  | None => []
  | Some data =>
      (if existsb (fun _ => true) (code_analysis data)
       then [mark (if existsb snd (code_analysis data)
                   then error_color else warning_color) (flag_rect self L)]
       else []) ++
      (if todo data then [mark todo_color (flag_rect self L)] else []) ++
      (if breakpoint data then [mark breakpoint_color (flag_rect self L)]
       else [])
  end.

(** The marks of the blocks [blk], the first of which is line [start]. *)
Fixpoint expected_blocks_marks (self : ScrollFlagArea) (start : nat)
  (blk : list (option BlockUserData)) : list PaintOp :=
  match blk with
  | [] => []
  | data :: rest =>
      expected_block_marks self (Z.of_nat start) data ++
      expected_blocks_marks self (S start) rest
  end.

Definition expected_lines_marks (self : ScrollFlagArea) (c : EditorColor)
  (lines : list Z) : list PaintOp :=
  map (fun L => mark c (flag_rect self L)) lines.

Definition indicator_wanted (self : ScrollFlagArea) (event : PaintInput)
  : bool :=
  (rect_contains self (cursor_pos event) || alt event) && slider self.

Definition slider_rect (self : ScrollFlagArea) (pos : QPoint) : QRect :=
  match make_slider_range self pos with
  | Ok r => r
  | Raise _ => mkQRect 0 0 0 0
  end.

Definition expected_indicator (self : ScrollFlagArea) (event : PaintInput)
  : list PaintOp :=
  if indicator_wanted self event then
    [DrawRect (Some (GrayAlpha 0.85)) (Some (GrayAlpha 0.5))
              (slider_rect self (cursor_pos event))]
  else [].

Definition expected_ops (self : ScrollFlagArea) (event : PaintInput)
  : list PaintOp :=
  let ed := editor self in
  [FillRect (event_rect event) (EditorQColor sideareas_color)] ++
  expected_blocks_marks self 0 (blocks ed) ++
  expected_lines_marks self occurrence_color (occurrences ed) ++
  expected_lines_marks self found_results_color (found_results ed) ++
  expected_indicator self event.

(** An operation painted with the translucent gray pen of the indicator. *)
Definition is_indicator (op : PaintOp) : bool :=
  match op with
  | DrawRect (Some (GrayAlpha _)) _ _ => true
  | _ => false
  end.

(** The user data of a block asks for no mark. *)
Definition no_flags (data : option BlockUserData) : bool :=
  match data with
  | None => true
  | Some data =>
      negb (existsb (fun _ => true) (code_analysis data)) &&
      negb (todo data) && negb (breakpoint data)
  end.

Definition is_nil {A : Type} (l : list A) : bool :=
  match l with [] => true | _ :: _ => false end.

(** A repaint places no flag and no indicator. *)
Definition nothing_to_draw (self : ScrollFlagArea) (event : PaintInput)
  : bool :=
  forallb no_flags (blocks (editor self)) &&
  is_nil (occurrences (editor self)) &&
  is_nil (found_results (editor self)) &&
  negb (indicator_wanted self event).

(** A document whose editor shows a visible scrollbar of zero span, with a
    todo on its only line. *)
Definition area_zero_span_todo : ScrollFlagArea :=
  mkScrollFlagArea
    (mkEditor (mkScrollBar 0 0 0 true 16 500)
              [Some (mkBlockUserData [] true false)]
              (fun _ => empty_rectf) (fun _ => empty_rectf)
              (mkQPointF 0 0) [] [])
    WIDTH 442.

(** A document whose only line has an error, in an editor showing a
    visible scrollbar of zero span. *)
Definition area_zero_span_error : ScrollFlagArea :=
  mkScrollFlagArea
    (mkEditor (mkScrollBar 0 0 0 true 16 500)
              [Some (mkBlockUserData [("undefined name"%string, true)]
                                     false false)]
              (fun _ => empty_rectf) (fun _ => empty_rectf)
              (mkQPointF 0 0) [] [])
    WIDTH 442.

(** The 100-line document with a breakpoint on line 10, two occurrences and
    a search hit. *)
Definition area_100_lines_flags : ScrollFlagArea :=
  mkScrollFlagArea
    (mkEditor (mkScrollBar 0 80 20 true 16 500)
              (repeat None 10 ++
               [Some (mkBlockUserData [] false true)] ++ repeat None 89)
              (fun _ => empty_rectf) (fun _ => empty_rectf)
              (mkQPointF 0 0) [10%Z; 42%Z] [42%Z])
    WIDTH 532.

Definition hover_event : PaintInput :=
  mkPaintInput (mkQRect 0 0 12 532) false (mkQPoint 3 200).

Definition idle_event : PaintInput :=
  mkPaintInput (mkQRect 0 0 12 532) false (mkQPoint (-40) 200).

(** ** Sequences of calls on a [ShellWidget] *)

Module ShellSession.

Import Shell.

(** A call of the public API. *)
Inductive Call : Type :=
| SetIpyclient (client : Client)
| ClearConsole
| ResetNamespace (reply : StandardButton).

Definition call (self : ShellWidget) (c : Call) : ShellWidget :=
  match c with
  | SetIpyclient client => set_ipyclient self client
  | ClearConsole => clear_console self
  | ResetNamespace reply => reset_namespace self reply
  end.

Definition run (self : ShellWidget) (calls : list Call) : ShellWidget :=
  fold_left call calls self.

(** The clients bound by a sequence of calls, in order. *)
Definition bound_clients (calls : list Call) : list Client :=
  flat_map (fun c => match c with
                     | SetIpyclient client => [client]
                     | _ => []
                     end) calls.

(** The sources a sequence of calls sends to the backend, in order. *)
Definition sources (calls : list Call) : list string :=
  flat_map (fun c => match c with
                     | ClearConsole => ["%clear"%string]
                     | ResetNamespace Yes => ["%reset -f"%string]
                     | _ => []
                     end) calls.

Definition Slot_eq_dec (a b : Slot) : {a = b} + {a <> b}.
Proof. decide equality. apply Nat.eq_dec. Defined.

(** Attribute access on [None]. *)
Inductive shell_exn : Type :=
| AttributeError.

Section ContextMenu.

(** The menu type and the client's [add_actions_to_context_menu]. *)
Variable Menu : Type.
Variable add_actions_to_context_menu : Client -> Menu -> Menu.

(** [menu] is what the inherited [_context_menu_make(pos)] returns. *)
Definition _context_menu_make (self : ShellWidget) (menu : Menu)
  : Menu + shell_exn :=
  match ipyclient self with
  | None => inr AttributeError
  | Some client => inl (add_actions_to_context_menu client menu)
  end.

End ContextMenu.

End ShellSession.

(** ** Banners *)

Module Banner.

Local Open Scope string_scope.

Definition newline : Ascii.ascii := Ascii.ascii_of_nat 10.

Definition nl : string := String newline EmptyString.

Definition pylab_message : string :=
  nl ++ "Populating the interactive namespace from " ++
  "numpy and matplotlib".

Definition sympy_lines : string :=
  nl ++ "These commands were executed:" ++
  nl ++ ">>> from __future__ import division" ++
  nl ++ ">>> from sympy import *" ++
  nl ++ ">>> x, y, z, t = symbols('x y z t')" ++
  nl ++ ">>> k, m, n = symbols('k m n', integer=True)" ++
  nl ++ ">>> f, g, h = symbols('f g h', cls=Function)" ++
  nl.

(** The options of section [ipython_console] read through [CONF.get]. *)
Record Conf : Type := mkConf {
  show_banner : bool;
  pylab : bool;
  pylab_autoload : bool;
  symbolic_math : bool
}.

(** [default_banner] is IPython's; [mpl_installed] is the answer of
    [programs.is_module_installed('matplotlib')]. *)
Definition long_banner (conf : Conf) (default_banner : string)
  (mpl_installed : bool) : string :=
  let banner := default_banner in
  let banner :=
    if mpl_installed && (pylab conf && pylab_autoload conf)
    then banner ++ pylab_message else banner in
  if symbolic_math conf then banner ++ sympy_lines else banner.

(** ['%d' % n] for a number that is not negative. *)
Definition format_d (n : nat) : string :=
  DecimalString.NilEmpty.string_of_uint (Nat.to_uint n).

(** [version_info] holds the first three fields of [sys.version_info],
    [version] is qtconsole's [__version__]. *)
Definition short_banner (version_info : nat * nat * nat)
  (platform version : string) : string :=
  let '(major, minor, micro) := version_info in
  let py_ver := format_d major ++ "." ++ format_d minor ++ "." ++
                format_d micro in
  "Python " ++ py_ver ++ " on " ++ platform ++ " -- QtConsole " ++ version.

Definition _banner_default (conf : Conf) (default_banner : string)
  (mpl_installed : bool) (version_info : nat * nat * nat)
  (platform version : string) : string :=
  if show_banner conf then long_banner conf default_banner mpl_installed
  else short_banner version_info platform version.

(** The string has a line break. *)
Fixpoint contains_newline (s : string) : bool :=
  match s with
  | EmptyString => false
  | String c s' => Ascii.eqb c newline || contains_newline s'
  end.

End Banner.

(** ** Basic facts on the arithmetic helpers *)

Lemma py_div_ok (a b : Q) : ~ b == 0 -> py_div a b = Ok (a / b).
Proof.
  intros Hb. unfold py_div.
  destruct (Qeq_bool b 0) eqn:E; [|reflexivity].
  apply Qeq_bool_iff in E. contradiction.
Qed.

Lemma py_max_ge_l (a b : Q) : a <= py_max a b.
Proof.
  unfold py_max. destruct (b ?= a) eqn:E; try apply Qle_refl.
  apply Qgt_alt in E. now apply Qlt_le_weak.
Qed.

Lemma py_max_ge_r (a b : Q) : b <= py_max a b.
Proof.
  unfold py_max. destruct (b ?= a) eqn:E.
  - apply Qeq_alt in E. rewrite E. apply Qle_refl.
  - apply Qlt_alt in E. now apply Qlt_le_weak.
  - apply Qle_refl.
Qed.

Lemma py_max_cases (a b : Q) :
  (b <= a /\ py_max a b = a) \/ (a < b /\ py_max a b = b).
Proof.
  unfold py_max. destruct (b ?= a) eqn:E.
  - left. apply Qeq_alt in E. split; [rewrite E; apply Qle_refl | reflexivity].
  - left. apply Qlt_alt in E. split; [now apply Qlt_le_weak | reflexivity].
  - right. apply Qgt_alt in E. split; [exact E | reflexivity].
Qed.

Lemma py_min_cases (a b : Q) :
  (a <= b /\ py_min a b = a) \/ (b < a /\ py_min a b = b).
Proof.
  unfold py_min. destruct (b ?= a) eqn:E.
  - left. apply Qeq_alt in E. split; [rewrite E; apply Qle_refl | reflexivity].
  - right. apply Qlt_alt in E. split; [exact E | reflexivity].
  - left. apply Qgt_alt in E. split; [now apply Qlt_le_weak | reflexivity].
Qed.

Lemma py_min_le_l (a b : Q) : py_min a b <= a.
Proof.
  destruct (py_min_cases a b) as [[_ ->]|[H ->]];
    [apply Qle_refl | now apply Qlt_le_weak].
Qed.

Lemma py_max_0_nonneg (q : Q) : 0 <= q -> py_max 0 q == q.
Proof.
  intros Hq. destruct (py_max_cases 0 q) as [[H ->]|[_ ->]]; [|reflexivity].
  now apply Qle_antisym.
Qed.

Lemma py_max_0_nonpos (q : Q) : q <= 0 -> py_max 0 q = 0.
Proof.
  intros Hq. destruct (py_max_cases 0 q) as [[_ ->]|[H _]]; [reflexivity|].
  exfalso. apply (Qlt_irrefl 0). now apply Qlt_le_trans with q.
Qed.

Lemma py_max_0_mono (q1 q2 : Q) : q1 <= q2 -> py_max 0 q1 <= py_max 0 q2.
Proof.
  intros H.
  destruct (py_max_cases 0 q1) as [[_ ->]|[_ ->]].
  - apply py_max_ge_l.
  - apply Qle_trans with q2; [exact H | apply py_max_ge_r].
Qed.

Lemma inject_Z_nonzero (z : Z) : z <> 0%Z -> ~ inject_Z z == 0.
Proof.
  intros Hz H. apply Hz. unfold Qeq in H. simpl in H. lia.
Qed.

Lemma inject_Z_pos (z : Z) : (0 < z)%Z -> 0 < inject_Z z.
Proof.
  intros Hz. change 0 with (inject_Z 0). now rewrite <- Zlt_Qlt.
Qed.

(** ** The scale factor *)

Lemma get_scale_factor_ok (self : ScrollFlagArea) :
  get_scrollbar_value_height self <> 0%Z ->
  get_scale_factor self =
  Ok (get_scrollbar_position_height self /
      inject_Z (get_scrollbar_value_height self)).
Proof.
  intros H. unfold get_scale_factor.
  apply py_div_ok. now apply inject_Z_nonzero.
Qed.

Lemma get_scale_factor_zero_span (self : ScrollFlagArea) :
  get_scrollbar_value_height self = 0%Z ->
  get_scale_factor self = Raise ZeroDivisionError.
Proof.
  intros H. unfold get_scale_factor. rewrite H. reflexivity.
Qed.

Lemma scale_factor_pos (self : ScrollFlagArea) :
  (0 < groove_height (verticalScrollBar (editor self)))%Z ->
  (0 < get_scrollbar_value_height self)%Z ->
  0 < get_scrollbar_position_height self /
      inject_Z (get_scrollbar_value_height self).
Proof.
  intros Hh Hs. unfold get_scrollbar_position_height.
  apply Qlt_shift_div_l.
  - now apply inject_Z_pos.
  - rewrite Qmult_0_l. now apply inject_Z_pos.
Qed.

Lemma value_to_position_ok (self : ScrollFlagArea) (y : Q) :
  get_scrollbar_value_height self <> 0%Z ->
  value_to_position self y =
  Ok ((y - inject_Z (minimum (verticalScrollBar (editor self)))) *
      (get_scrollbar_position_height self /
       inject_Z (get_scrollbar_value_height self)) +
      inject_Z (offset self)).
Proof.
  intros H. unfold value_to_position.
  rewrite (get_scale_factor_ok self H). reflexivity.
Qed.

Lemma position_to_value_ok (self : ScrollFlagArea) (y : Q) :
  (0 < groove_height (verticalScrollBar (editor self)))%Z ->
  (0 < get_scrollbar_value_height self)%Z ->
  position_to_value self y =
  Ok (inject_Z (minimum (verticalScrollBar (editor self))) +
      py_max 0 ((y - inject_Z (offset self)) /
                (get_scrollbar_position_height self /
                 inject_Z (get_scrollbar_value_height self)))).
Proof.
  intros Hh Hs. unfold position_to_value.
  rewrite get_scale_factor_ok by lia. simpl.
  rewrite py_div_ok; [reflexivity|].
  intros E. pose proof (scale_factor_pos self Hh Hs) as P.
  rewrite E in P. now apply Qlt_irrefl in P.
Qed.

(** ** Scaled mode *)

Lemma make_flag_qrect_visible_eq (self : ScrollFlagArea) (value : Z) :
  slider self = true ->
  make_flag_qrect self value =
  (position <- value_to_position self (inject_Z value + 0.5) ;;
   Ok (mkQRect (inject_Z FLAGS_DX / 2) (position - inject_Z FLAGS_DY / 2)
               (inject_Z (WIDTH - FLAGS_DX)) (inject_Z FLAGS_DY))).
Proof.
  intros H. unfold make_flag_qrect. now rewrite H.
Qed.

(** C1. In scaled mode [value_to_position] maps a value [v] to
    [(v - min) * s + offset] with [s = groove height / (max - min + pageStep)],
    and [make_flag_qrect] builds, for a line [L], the rectangle whose vertical
    centre is that mapping at [L + 0.5].  With min = 0, max = 80,
    pageStep = 20 and a groove of 500 pixels, [s] is 5 and line 50 is
    centred at [(50.5 - 0) * 5 + offset]. *)
Theorem scaled_mode_mapping (self : ScrollFlagArea) (v : Q) (L : Z)
  (Hspan : get_scrollbar_value_height self <> 0%Z) :
  let vsb := verticalScrollBar (editor self) in
  let s := inject_Z (groove_height vsb) /
           inject_Z (maximum vsb - minimum vsb + pageStep vsb) in
  get_scale_factor self = Ok s /\
  value_to_position self v =
    Ok ((v - inject_Z (minimum vsb)) * s + inject_Z (offset self)) /\
  (slider self = true ->
   exists position r,
     value_to_position self (inject_Z L + 0.5) = Ok position /\
     make_flag_qrect self L = Ok r /\
     rect_center_y r == position /\
     position ==
       (inject_Z L + 0.5 - inject_Z (minimum vsb)) * s + inject_Z (offset self)) /\
  (minimum vsb = 0%Z -> maximum vsb = 80%Z -> pageStep vsb = 20%Z ->
   groove_height vsb = 500%Z -> slider self = true ->
   s == 5 /\
   exists r, make_flag_qrect self 50 = Ok r /\
             rect_center_y r == (50.5 - 0) * 5 + inject_Z (offset self)).
Proof.
  intros vsb s.
  assert (Hs : get_scale_factor self = Ok s) by now apply get_scale_factor_ok.
  assert (Hv : forall y, value_to_position self y =
                 Ok ((y - inject_Z (minimum vsb)) * s + inject_Z (offset self)))
    by (intros y; now apply value_to_position_ok).
  split; [exact Hs|]. split; [apply Hv|]. split.
  - intros Hvis. eexists. eexists. split; [apply Hv|]. split.
    + rewrite (make_flag_qrect_visible_eq self L Hvis), Hv. reflexivity.
    + split; [|reflexivity].
      unfold rect_center_y, FLAGS_DY; simpl. field.
  - intros Hmin Hmax Hpage Hh Hvis.
    assert (E : s == 5).
    { subst s. rewrite Hmin, Hmax, Hpage, Hh. reflexivity. }
    split; [exact E|].
    eexists. split.
    + rewrite (make_flag_qrect_visible_eq self 50 Hvis), Hv. reflexivity.
    + unfold rect_center_y, FLAGS_DY; simpl.
      rewrite E, Hmin. field.
Qed.

Lemma scaled_mode_mapping_witness :
  get_scale_factor area_100_lines = Ok (500 / 100) /\
  value_to_position area_100_lines 50.5 = Ok ((50.5 - 0) * (500 / 100) + 16) /\
  exists r, make_flag_qrect area_100_lines 50 = Ok r /\
            rect_center_y r == (50.5 - 0) * 5 + 16.
Proof.
  assert (H : get_scrollbar_value_height area_100_lines <> 0%Z)
    by (vm_compute; discriminate).
  destruct (scaled_mode_mapping area_100_lines 50.5 50 H)
    as (Hs & Hv & _ & Hex).
  split; [exact Hs|]. split; [exact Hv|].
  destruct Hex as (_ & r & Hr & Hc); try reflexivity.
  exists r. split; [exact Hr | exact Hc].
Defined.

(** C2. In scaled mode with a positive groove height and a positive value
    span, [position_to_value] undoes [value_to_position] on every value
    between the minimum and the maximum of the scrollbar (exactly, the
    floats being taken as rationals). *)
Theorem position_to_value_value_to_position (self : ScrollFlagArea) (v : Q)
  (Hh : (0 < groove_height (verticalScrollBar (editor self)))%Z)
  (Hspan : (0 < get_scrollbar_value_height self)%Z)
  (Hmin : inject_Z (minimum (verticalScrollBar (editor self))) <= v)
  (Hmax : v <= inject_Z (maximum (verticalScrollBar (editor self)))) :
  exists position value,
    value_to_position self v = Ok position /\
    position_to_value self position = Ok value /\
    value == v.
Proof.
  pose proof (scale_factor_pos self Hh Hspan) as Hs.
  eexists. eexists.
  split; [apply value_to_position_ok; lia|].
  split; [apply position_to_value_ok; assumption|].
  set (s := get_scrollbar_position_height self /
            inject_Z (get_scrollbar_value_height self)) in *.
  set (mn := inject_Z (minimum (verticalScrollBar (editor self)))) in *.
  set (off := inject_Z (offset self)).
  assert (E : ((v - mn) * s + off - off) / s == v - mn).
  { field. intros Z0. rewrite Z0 in Hs. now apply Qlt_irrefl in Hs. }
  rewrite (py_max_0_nonneg (q := ((v - mn) * s + off - off) / s)).
  - rewrite E. ring.
  - rewrite E. lra.
Qed.

Lemma position_to_value_value_to_position_witness :
  exists position value,
    value_to_position area_100_lines 50 = Ok position /\
    position_to_value area_100_lines position = Ok value /\
    value == 50.
Proof.
  apply (position_to_value_value_to_position area_100_lines (v := 50)).
  - reflexivity.
  - reflexivity.
  - vm_compute. discriminate.
  - vm_compute. discriminate.
Defined.

(** C10. With a positive groove height and a positive value span,
    [position_to_value] is monotone in the pixel argument, never returns
    less than the scrollbar minimum, and maps every pixel at or above the
    groove's top ([y <= offset]) to the minimum. *)
Theorem position_to_value_monotone (self : ScrollFlagArea) (y1 y2 : Q)
  (Hh : (0 < groove_height (verticalScrollBar (editor self)))%Z)
  (Hspan : (0 < get_scrollbar_value_height self)%Z)
  (Hle : y1 <= y2) :
  exists v1 v2,
    position_to_value self y1 = Ok v1 /\
    position_to_value self y2 = Ok v2 /\
    v1 <= v2 /\
    inject_Z (minimum (verticalScrollBar (editor self))) <= v1 /\
    (y1 <= inject_Z (offset self) ->
     v1 == inject_Z (minimum (verticalScrollBar (editor self)))).
Proof.
  pose proof (scale_factor_pos self Hh Hspan) as Hs.
  eexists. eexists.
  split; [apply position_to_value_ok; assumption|].
  split; [apply position_to_value_ok; assumption|].
  set (s := get_scrollbar_position_height self /
            inject_Z (get_scrollbar_value_height self)) in *.
  set (mn := inject_Z (minimum (verticalScrollBar (editor self)))).
  set (off := inject_Z (offset self)).
  split; [|split].
  - apply Qplus_le_r. apply py_max_0_mono.
    apply Qle_shift_div_l; [exact Hs|].
    assert (E : (y1 - off) / s * s == y1 - off).
    { field. intros Z0. rewrite Z0 in Hs. now apply Qlt_irrefl in Hs. }
    rewrite E. lra.
  - pose proof (py_max_ge_l 0 ((y1 - off) / s)). lra.
  - intros Hy. rewrite py_max_0_nonpos; [ring|].
    apply Qle_shift_div_r; [exact Hs|]. lra.
Qed.

Lemma position_to_value_monotone_witness :
  exists v1 v2,
    position_to_value area_100_lines 10 = Ok v1 /\
    position_to_value area_100_lines 216 = Ok v2 /\
    v1 <= v2 /\ 0 <= v1 /\ (10 <= 16 -> v1 == 0).
Proof.
  apply (position_to_value_monotone area_100_lines (y1 := 10) (y2 := 216)).
  - reflexivity.
  - reflexivity.
  - vm_compute. discriminate.
Defined.

(** ** Zero value span *)

Lemma make_flag_qrect_hidden_eq (self : ScrollFlagArea) (value : Z) :
  slider self = false ->
  make_flag_qrect self value =
  Ok (mkQRect (inject_Z FLAGS_DX / 2)
        ((rectf_y (blockBoundingGeometry (editor self) value) +
          pointf_y (contentOffset (editor self)) +
          (rectf_y (blockBoundingGeometry (editor self) value) +
           pointf_y (contentOffset (editor self)) +
           rectf_height (blockBoundingRect (editor self) value))) / 2 -
         inject_Z FLAGS_DY / 2)
        (inject_Z (WIDTH - FLAGS_DX)) (inject_Z FLAGS_DY)).
Proof.
  intros H. unfold make_flag_qrect. rewrite H. reflexivity.
Qed.

Lemma scaled_mappings_raise_on_zero_span (self : ScrollFlagArea) :
  get_scrollbar_value_height self = 0%Z ->
  (forall y, value_to_position self y = Raise ZeroDivisionError) /\
  (forall L, slider self = true ->
             make_flag_qrect self L = Raise ZeroDivisionError).
Proof.
  intros Hspan.
  pose proof (get_scale_factor_zero_span self Hspan) as Hs.
  assert (Hv : forall y, value_to_position self y = Raise ZeroDivisionError).
  { intros y. unfold value_to_position. now rewrite Hs. }
  split; [exact Hv|].
  intros L Hvis. rewrite (make_flag_qrect_visible_eq self L Hvis). now rewrite Hv.
Qed.

(** C3, as stated, fails: with a visible scrollbar whose value span is
    zero, [get_scale_factor] divides by zero, and [make_flag_qrect] raises
    instead of falling back to the unscaled placement. *)
Lemma zero_span_not_guarded :
  get_scrollbar_value_height area_zero_span = 0%Z /\
  slider area_zero_span = true /\
  get_scale_factor area_zero_span = Raise ZeroDivisionError /\
  value_to_position area_zero_span 7 = Raise ZeroDivisionError /\
  position_to_value area_zero_span 7 = Raise ZeroDivisionError /\
  make_flag_qrect area_zero_span 7 = Raise ZeroDivisionError /\
  make_slider_range area_zero_span (mkQPoint 3 7) = Raise ZeroDivisionError.
Proof.
  repeat split; reflexivity.
Qed.

(** C3, amended. The scaled computation has no guard: when the value span
    is zero, [get_scale_factor] raises [ZeroDivisionError] and so do
    [value_to_position], [position_to_value], [make_slider_range] and, the
    scrollbar being visible, [make_flag_qrect].  The unscaled placement is
    chosen by the visibility of the scrollbar alone: when it is hidden,
    [make_flag_qrect] returns a rectangle whatever the span. *)
Theorem zero_span_raises (self : ScrollFlagArea)
  (Hspan : get_scrollbar_value_height self = 0%Z) :
  get_scale_factor self = Raise ZeroDivisionError /\
  (forall y, value_to_position self y = Raise ZeroDivisionError) /\
  (forall y, position_to_value self y = Raise ZeroDivisionError) /\
  (forall pos, make_slider_range self pos = Raise ZeroDivisionError) /\
  (forall L, slider self = true ->
             make_flag_qrect self L = Raise ZeroDivisionError) /\
  (forall L, slider self = false ->
             exists r, make_flag_qrect self L = Ok r).
Proof.
  pose proof (get_scale_factor_zero_span self Hspan) as Hs.
  destruct (scaled_mappings_raise_on_zero_span self Hspan) as [Hv Hf].
  split; [exact Hs|]. split; [exact Hv|]. split; [|split; [|split]].
  - intros y. unfold position_to_value. now rewrite Hs.
  - intros pos. unfold make_slider_range. now rewrite Hv.
  - exact Hf.
  - intros L Hvis. eexists. now apply make_flag_qrect_hidden_eq.
Qed.

Lemma zero_span_raises_witness :
  get_scale_factor area_zero_span = Raise ZeroDivisionError /\
  (forall y, value_to_position area_zero_span y = Raise ZeroDivisionError).
Proof.
  destruct (zero_span_raises area_zero_span) as (Hs & Hv & _).
  - reflexivity.
  - split; [exact Hs | exact Hv].
Defined.

(** ** The viewport indicator *)

Lemma make_slider_range_ok (self : ScrollFlagArea) (pos : QPoint) :
  get_scrollbar_value_height self <> 0%Z ->
  let vsb := verticalScrollBar (editor self) in
  let s := get_scrollbar_position_height self /
           inject_Z (get_scrollbar_value_height self) in
  let slider_height :=
    (inject_Z (pageStep vsb) - inject_Z (minimum vsb)) * s +
    inject_Z (offset self) in
  make_slider_range self pos =
  Ok (mkQRect 1
        (py_max (inject_Z (offset self))
           (py_min (get_scrollbar_position_height self +
                    inject_Z (offset self) - slider_height)
                   (inject_Z (point_y pos) - slider_height / 2)))
        (inject_Z (WIDTH - 2)) slider_height).
Proof.
  intros H vsb s slider_height. unfold make_slider_range.
  rewrite (value_to_position_ok self _ H). reflexivity.
Qed.

(** C5, at the failing input. For the document of 100 lines (min = 0,
    max = 80, pageStep = 20, groove 500 pixels high starting at y = 16) the
    scale factor is 5 and the scaled page step is 100 pixels, but the
    indicator returned by [make_slider_range] is 116 pixels high: the height
    is [value_to_position(pageStep)], which adds the groove offset (and
    subtracts the minimum before scaling). *)
Theorem slider_height_includes_offset :
  exists s r,
    get_scale_factor area_100_lines = Ok s /\
    make_slider_range area_100_lines (mkQPoint 3 200) = Ok r /\
    inject_Z (pageStep (verticalScrollBar (editor area_100_lines))) * s == 100 /\
    rect_height r == 116 /\
    ~ rect_height r ==
      inject_Z (pageStep (verticalScrollBar (editor area_100_lines))) * s.
Proof.
  eexists. eexists.
  split; [reflexivity|]. split; [reflexivity|].
  split; [reflexivity|]. split; [reflexivity|].
  vm_compute. discriminate.
Qed.

(** C6, at the failing input. For the document of 41 lines with 40 on
    screen (min = 0, max = 1, pageStep = 40, groove 410 pixels high starting
    at y = 16) the scale factor is 10 and the scaled page step is 400
    pixels, which fits the groove; but [make_slider_range] takes
    [value_to_position(pageStep)] = 416 for the height, so the upper bound
    [groove_height + offset - indicator_height] is 10, below the lower bound
    16: the indicator is placed at 16, above the upper bound, and ends at
    432, below the bottom of the groove at 426. *)
Theorem slider_y_above_upper_bound :
  exists s r,
    get_scale_factor area_41_lines = Ok s /\
    inject_Z (pageStep (verticalScrollBar (editor area_41_lines))) * s
      == 400 /\
    make_slider_range area_41_lines (mkQPoint 3 200) = Ok r /\
    rect_height r == 416 /\
    rect_y r == 16 /\
    get_scrollbar_position_height area_41_lines +
      inject_Z (offset area_41_lines) - rect_height r == 10 /\
    ~ (inject_Z (offset area_41_lines) <= rect_y r /\
       rect_y r <= get_scrollbar_position_height area_41_lines +
                   inject_Z (offset area_41_lines) - rect_height r) /\
    ~ (rect_y r + rect_height r <=
       inject_Z (offset area_41_lines) +
       get_scrollbar_position_height area_41_lines).
Proof.
  eexists. eexists. split; [reflexivity|]. split; [reflexivity|].
  split; [reflexivity|].
  split; [reflexivity|]. split; [reflexivity|]. split; [reflexivity|].
  split.
  - intros [_ H]. vm_compute in H. now apply H.
  - intros H. vm_compute in H. now apply H.
Qed.

(** With the height the comment in [make_slider_range] describes, the
    scaled page step [pageStep * s], the interval of the clamp is never
    empty on a scrollbar with [minimum <= maximum], a page step and a groove
    height that are not negative and a positive value span: the clamp then
    keeps the position between [offset] and
    [groove_height + offset - height], for every cursor position. *)
Lemma clamp_bounds_for_scaled_page_step (self : ScrollFlagArea) (y : Q) :
  (0 <= groove_height (verticalScrollBar (editor self)))%Z ->
  (0 < get_scrollbar_value_height self)%Z ->
  (minimum (verticalScrollBar (editor self)) <=
   maximum (verticalScrollBar (editor self)))%Z ->
  (0 <= pageStep (verticalScrollBar (editor self)))%Z ->
  let h := get_scrollbar_position_height self in
  let off := inject_Z (offset self) in
  let height :=
    inject_Z (pageStep (verticalScrollBar (editor self))) *
    (h / inject_Z (get_scrollbar_value_height self)) in
  height <= h /\
  off <= py_max off (py_min (h + off - height) (y - height / 2)) /\
  py_max off (py_min (h + off - height) (y - height / 2)) <=
    h + off - height.
Proof.
  intros Hh Hspan Hmm Hpage. cbv zeta.
  unfold get_scrollbar_position_height, get_scrollbar_value_height in *.
  set (vsb := verticalScrollBar (editor self)) in *.
  assert (Hsp : inject_Z (pageStep vsb) <=
                inject_Z (maximum vsb - minimum vsb + pageStep vsb)).
  { rewrite <- Zle_Qle. lia. }
  assert (Hpos : 0 < inject_Z (maximum vsb - minimum vsb + pageStep vsb))
    by now apply inject_Z_pos.
  assert (Hh' : 0 <= inject_Z (groove_height vsb)).
  { change 0 with (inject_Z 0). now rewrite <- Zle_Qle. }
  assert (Hp' : 0 <= inject_Z (pageStep vsb)).
  { change 0 with (inject_Z 0). now rewrite <- Zle_Qle. }
  set (sp := inject_Z (maximum vsb - minimum vsb + pageStep vsb)) in *.
  set (h := inject_Z (groove_height vsb)) in *.
  set (pg := inject_Z (pageStep vsb)) in *.
  set (off := inject_Z (offset self)).
  assert (Hfit : pg * (h / sp) <= h).
  { assert (E : pg * (h / sp) == pg * h / sp).
    { field. intros Z0. rewrite Z0 in Hpos. lra. }
    rewrite E. apply Qle_shift_div_r; [exact Hpos | nra]. }
  split; [exact Hfit|]. split; [apply py_max_ge_l|].
  match goal with |- py_max ?a (py_min ?b ?c) <= _ =>
    destruct (py_max_cases a (py_min b c)) as [[_ ->]|[_ ->]];
    [lra | apply py_min_le_l]
  end.
Qed.

(** The clamp as [make_slider_range] computes it: whenever the value span
    is not zero a rectangle is returned whose [slider_y] is at least
    [offset]; it is at most [groove_height + offset - height] when the
    height is not more than the groove height, and is [offset] otherwise,
    the lower bound being applied last. *)
Lemma slider_y_clamped (self : ScrollFlagArea) (pos : QPoint)
  (Hspan : get_scrollbar_value_height self <> 0%Z) :
  exists r,
    make_slider_range self pos = Ok r /\
    inject_Z (offset self) <= rect_y r /\
    (rect_height r <= get_scrollbar_position_height self ->
     rect_y r <= get_scrollbar_position_height self +
                 inject_Z (offset self) - rect_height r) /\
    (get_scrollbar_position_height self < rect_height r ->
     rect_y r = inject_Z (offset self)).
Proof.
  eexists. split; [now apply make_slider_range_ok|]. simpl.
  split; [apply py_max_ge_l|]. split.
  - intros Hfit.
    match goal with |- py_max ?a (py_min ?b ?c) <= _ =>
      destruct (py_max_cases a (py_min b c)) as [[_ ->]|[_ ->]];
      [lra | apply py_min_le_l]
    end.
  - intros Htall.
    match goal with |- py_max ?a (py_min ?b ?c) = _ =>
      pose proof (py_min_le_l b c) as Hm;
      destruct (py_max_cases a (py_min b c)) as [[_ ->]|[Hlt _]];
      [reflexivity | exfalso; lra]
    end.
Qed.

Lemma slider_y_clamped_witness :
  exists r,
    make_slider_range area_100_lines (mkQPoint 3 200) = Ok r /\
    16 <= rect_y r /\
    (rect_height r <= 500 -> rect_y r <= 500 + 16 - rect_height r) /\
    (500 < rect_height r -> rect_y r = 16).
Proof.
  apply (slider_y_clamped area_100_lines (mkQPoint 3 200)).
  vm_compute. discriminate.
Defined.

(** ** Unscaled mode *)

(** C4. When the vertical scrollbar is hidden, [make_flag_qrect] returns,
    for every line [L], a rectangle whose vertical centre is the middle of
    the block of [L]: the top of its bounding geometry translated by the
    content offset, plus half of the height of its bounding rectangle.  The
    rectangle does not depend on the minimum, the maximum or the page step
    of the scrollbar. *)
Theorem make_flag_qrect_unscaled (self : ScrollFlagArea) (L : Z)
  (Hhidden : slider self = false) :
  let ed := editor self in
  let block := findBlockByLineNumber ed L in
  exists r,
    make_flag_qrect self L = Ok r /\
    rect_center_y r ==
      top (translated (blockBoundingGeometry ed block) (contentOffset ed)) +
      rectf_height (blockBoundingRect ed block) / 2 /\
    forall mn mx ps,
      make_flag_qrect (set_scrollbar_range self mn mx ps) L = Ok r.
Proof.
  intros ed block. eexists.
  split; [now apply make_flag_qrect_hidden_eq|]. split.
  - subst ed block.
    unfold rect_center_y, top, translated, findBlockByLineNumber, FLAGS_DY.
    simpl. field.
  - intros mn mx ps.
    rewrite make_flag_qrect_hidden_eq; [reflexivity|].
    unfold slider, set_scrollbar_range; simpl. exact Hhidden.
Qed.

Lemma make_flag_qrect_unscaled_witness :
  exists r,
    make_flag_qrect area_small_document 2 = Ok r /\
    rect_center_y r == (17 * 2 + 4) + 17 / 2 /\
    forall mn mx ps,
      make_flag_qrect (set_scrollbar_range area_small_document mn mx ps) 2 =
      Ok r.
Proof.
  apply (make_flag_qrect_unscaled area_small_document 2). reflexivity.
Defined.

(** ** Painting *)

Lemma make_flag_qrect_total (self : ScrollFlagArea) :
  can_paint self -> forall L, exists r, make_flag_qrect self L = Ok r.
Proof.
  intros Hc L. destruct (slider self) eqn:Hvis.
  - destruct Hc as [Hc|Hc]; [congruence|].
    rewrite (make_flag_qrect_visible_eq self L Hvis).
    rewrite (value_to_position_ok self _ Hc). eexists. reflexivity.
  - eexists. now apply make_flag_qrect_hidden_eq.
Qed.

Lemma make_flag_qrect_can_paint (self : ScrollFlagArea) (L : Z) (r : QRect) :
  make_flag_qrect self L = Ok r -> can_paint self.
Proof.
  intros H. destruct (slider self) eqn:Hvis; [right | now left].
  intros Hspan.
  destruct (scaled_mappings_raise_on_zero_span self Hspan) as [_ Hr].
  rewrite (Hr L Hvis) in H. discriminate.
Qed.

Lemma analysis_color_spec (l : list (string * bool)) :
  analysis_color warning_color l =
  if existsb snd l then error_color else warning_color.
Proof.
  induction l as [|[message error] l IH]; simpl; [reflexivity|].
  destruct error; [reflexivity | exact IH].
Qed.

Lemma range_from_app (a n m : nat) :
  range_from a (n + m) = range_from a n ++ range_from (a + n) m.
Proof.
  unfold range_from. now rewrite seq_app, map_app.
Qed.

Lemma userData_skipn (blk : list (option BlockUserData)) (n : nat) :
  userData (skipn n blk) =
  match nth_error blk n with Some data => data | None => None end.
Proof.
  revert blk. induction n as [|n IH]; intros [|d blk]; simpl; auto.
Qed.

Lemma next_skipn (blk : list (option BlockUserData)) (n : nat) :
  next (skipn n blk) = skipn (S n) blk.
Proof.
  revert blk. induction n as [|n IH]; intros [|d blk]; simpl; auto.
Qed.

Lemma paint_blocks_app (self : ScrollFlagArea) (l1 l2 : list Z) :
  forall painter blk,
    paint_blocks self painter (l1 ++ l2) blk =
    (p <- paint_blocks self painter l1 blk ;;
     paint_blocks self p l2 (skipn (List.length l1) blk)).
Proof.
  induction l1 as [|x l1 IH]; intros painter blk; simpl; [reflexivity|].
  destruct (paint_block self painter x (userData blk)) as [p|e]; simpl;
    [|reflexivity].
  rewrite IH. unfold next.
  destruct blk; simpl; rewrite ?skipn_nil; reflexivity.
Qed.

(** Every step of the painting only adds operations. *)
Lemma paint_block_total (self : ScrollFlagArea) (painter : QPainter)
  (L : Z) (data : option BlockUserData) :
  can_paint self ->
  exists p l, paint_block self painter L data = Ok p /\
              ops p = ops painter ++ l.
Proof.
  intros Hc. destruct (make_flag_qrect_total Hc L) as [r Hr].
  destruct data as [[ca td bp]|]; simpl.
  2:{ exists painter, []. now rewrite app_nil_r. }
  rewrite Hr.
  destruct ca as [|c ca], td, bp; simpl;
    eexists; eexists; (split; [reflexivity|]); simpl;
    rewrite <- ?app_assoc; try reflexivity.
  instantiate (1 := []). now rewrite app_nil_r.
Qed.

Lemma paint_blocks_total (self : ScrollFlagArea) (lines : list Z) :
  can_paint self ->
  forall painter blk,
  exists p l, paint_blocks self painter lines blk = Ok p /\
              ops p = ops painter ++ l.
Proof.
  intros Hc. induction lines as [|x lines IH]; intros painter blk; simpl.
  - exists painter, []. now rewrite app_nil_r.
  - destruct (paint_block_total painter x (userData blk) Hc)
      as (p & l & -> & Hl). simpl.
    destruct (IH p (next blk)) as (p' & l' & -> & Hl').
    exists p', (l ++ l'). split; [reflexivity|].
    now rewrite Hl', Hl, app_assoc.
Qed.

Lemma paint_lines_total (self : ScrollFlagArea) (lines : list Z) :
  can_paint self ->
  forall painter,
  exists p l, paint_lines self painter lines = Ok p /\
              ops p = ops painter ++ l.
Proof.
  intros Hc. induction lines as [|x lines IH]; intros painter; simpl.
  - exists painter, []. now rewrite app_nil_r.
  - destruct (make_flag_qrect_total Hc x) as [r ->]. simpl.
    destruct (IH (drawRect painter r)) as (p' & l' & -> & Hl').
    eexists. eexists. split; [reflexivity|].
    rewrite Hl'. simpl. now rewrite <- app_assoc.
Qed.

Lemma make_slider_range_total (self : ScrollFlagArea) (pos : QPoint) :
  can_paint self -> slider self = true ->
  exists r, make_slider_range self pos = Ok r.
Proof.
  intros [Hc|Hc] Hvis; [congruence|].
  eexists. now apply make_slider_range_ok.
Qed.

(** The phases of [paintEvent] after the loop over the blocks. *)
Lemma paintEvent_after_blocks (self : ScrollFlagArea) (event : PaintInput)
  (p1 : QPainter) :
  can_paint self ->
  paint_blocks self
    (fillRect new_painter (event_rect event) (EditorQColor sideareas_color))
    (range (blockCount (editor self) + 1)) (blocks (editor self)) = Ok p1 ->
  exists final l, paintEvent self event = Ok final /\
                  ops final = ops p1 ++ l.
Proof.
  intros Hc H1. unfold paintEvent. rewrite H1. simpl.
  assert (H2 : exists p2 l2,
    match occurrences (editor self) with
    | [] => Ok p1
    | _ :: _ => paint_lines self (set_painter p1 occurrence_color)
                            (occurrences (editor self))
    end = Ok p2 /\ ops p2 = ops p1 ++ l2).
  { destruct (occurrences (editor self)) as [|o os] eqn:E.
    - exists p1, []. now rewrite app_nil_r.
    - apply (paint_lines_total (o :: os) Hc (set_painter p1 occurrence_color)). }
  destruct H2 as (p2 & l2 & -> & Hl2). simpl.
  assert (H3 : exists p3 l3,
    match found_results (editor self) with
    | [] => Ok p2
    | _ :: _ => paint_lines self (set_painter p2 found_results_color)
                            (found_results (editor self))
    end = Ok p3 /\ ops p3 = ops p2 ++ l3).
  { destruct (found_results (editor self)) as [|o os] eqn:E.
    - exists p2, []. now rewrite app_nil_r.
    - apply (paint_lines_total (o :: os) Hc
               (set_painter p2 found_results_color)). }
  destruct H3 as (p3 & l3 & -> & Hl3). simpl.
  destruct ((rect_contains self (cursor_pos event) || alt event) &&
            slider self) eqn:Hind.
  - apply andb_true_iff in Hind. destruct Hind as [_ Hvis].
    destruct (make_slider_range_total (cursor_pos event) Hc Hvis) as [r ->].
    simpl. eexists. eexists. split; [reflexivity|].
    simpl. rewrite Hl3, Hl2. now rewrite <- !app_assoc.
  - exists p3, (l2 ++ l3). split; [reflexivity|].
    now rewrite Hl3, Hl2, app_assoc.
Qed.

Lemma paint_block_marks (self : ScrollFlagArea) (painter : QPainter)
  (L : Z) (data : BlockUserData) (r : QRect) :
  code_analysis data <> [] ->
  make_flag_qrect self L = Ok r ->
  exists after,
    paint_block self painter L (Some data) = Ok after /\
    ops after =
      ops painter ++
      [mark (if existsb snd (code_analysis data)
             then error_color else warning_color) r] ++
      (if todo data then [mark todo_color r] else []) ++
      (if breakpoint data then [mark breakpoint_color r] else []).
Proof.
  intros Hne Hr. rewrite <- analysis_color_spec.
  destruct data as [ca td bp]; simpl in *.
  destruct ca as [|c ca]; [congruence|].
  rewrite Hr.
  destruct td, bp; simpl; eexists; (split; [reflexivity|]); simpl;
    unfold mark; rewrite <- ?app_assoc; reflexivity.
Qed.

(** C7, as stated, fails: with a visible scrollbar whose value span is
    zero, the only line of the document has a non-empty [code_analysis]
    list, yet no mark is painted for it.  The iteration for the line raises
    [ZeroDivisionError] in [make_flag], the argument of [drawRect], and so
    do the loop over the blocks and [paintEvent], whatever the event. *)
Lemma paintEvent_no_mark_on_zero_span :
  let self := area_zero_span_error in
  let data := mkBlockUserData [("undefined name"%string, true)] false false in
  let painter :=
    fillRect new_painter (event_rect idle_event)
             (EditorQColor sideareas_color) in
  nth_error (blocks (editor self)) 0 = Some (Some data) /\
  code_analysis data <> [] /\
  slider self = true /\
  get_scrollbar_value_height self = 0%Z /\
  make_flag_qrect self 0 = Raise ZeroDivisionError /\
  paint_block self painter 0 (Some data) = Raise ZeroDivisionError /\
  paint_blocks self painter (range (blockCount (editor self) + 1))
               (blocks (editor self)) = Raise ZeroDivisionError /\
  paintEvent self idle_event = Raise ZeroDivisionError /\
  paintEvent self hover_event = Raise ZeroDivisionError.
Proof.
  cbv zeta. repeat split; try reflexivity. discriminate.
Qed.

(** C7, amended. During [paintEvent], for a line [L] whose user data has a
    non-empty [code_analysis] list and whose flag rectangle
    [make_flag_qrect] can compute (the scrollbar is hidden, or its value
    span is not zero), the loop over the blocks paints, at the
    rectangle of [L]: one diagnostics mark, in the error color if some entry
    is flagged as an error and in the warning color otherwise; then one todo
    mark if the todo flag is set; then one breakpoint mark if the breakpoint
    flag is set.  These are all the operations of the iteration for [L]:
    [before] is the painter after the lines above [L], [after] the painter
    with which the loop goes on to the lines below, and [paintEvent] ends
    with the operations of [after] followed by those of the later lines and
    phases. *)
Theorem paintEvent_line_marks (self : ScrollFlagArea) (event : PaintInput)
  (L : nat) (data : BlockUserData) (r : QRect)
  (Hdata : nth_error (blocks (editor self)) L = Some (Some data))
  (Hdiag : code_analysis data <> [])
  (Hrect : make_flag_qrect self (Z.of_nat L) = Ok r) :
  let ed := editor self in
  let painter :=
    fillRect new_painter (event_rect event) (EditorQColor sideareas_color) in
  let diagnostics_color :=
    if existsb snd (code_analysis data) then error_color else warning_color in
  exists before after final rest,
    paint_blocks self painter (range L) (blocks ed) = Ok before /\
    paint_block self before (Z.of_nat L) (Some data) = Ok after /\
    ops after =
      ops before ++
      [mark diagnostics_color r] ++
      (if todo data then [mark todo_color r] else []) ++
      (if breakpoint data then [mark breakpoint_color r] else []) /\
    paint_blocks self painter (range (blockCount ed + 1)) (blocks ed) =
      paint_blocks self after (range_from (S L) (blockCount ed - L))
                   (skipn (S L) (blocks ed)) /\
    paintEvent self event = Ok final /\
    ops final = ops after ++ rest.
Proof.
  intros ed painter diagnostics_color.
  pose proof (make_flag_qrect_can_paint _ _ Hrect) as Hc.
  assert (HL : (L < blockCount ed)%nat).
  { unfold blockCount, ed. apply nth_error_Some. rewrite Hdata.
    discriminate. }
  destruct (paint_blocks_total (range L) Hc painter (blocks ed))
    as (before & l0 & Hbefore & _).
  destruct (@paint_block_marks self before _ data r Hdiag Hrect)
    as (after & Hafter & Hops).
  assert (Hloop :
    paint_blocks self painter (range (blockCount ed + 1)) (blocks ed) =
    paint_blocks self after (range_from (S L) (blockCount ed - L))
                 (skipn (S L) (blocks ed))).
  { replace (range (blockCount ed + 1))
      with (range_from 0 L ++ [Z.of_nat L] ++
            range_from (S L) (blockCount ed - L)).
    2:{ change (range (blockCount ed + 1))
          with (range_from 0 (blockCount ed + 1)).
        replace (blockCount ed + 1)%nat
          with (L + (1 + (blockCount ed - L)))%nat by lia.
        rewrite range_from_app, (range_from_app (0 + L) 1).
        simpl. replace (L + 1)%nat with (S L) by lia. reflexivity. }
    rewrite paint_blocks_app.
    change (range_from 0 L) with (range L). rewrite Hbefore. simpl.
    unfold range. rewrite length_map, length_seq.
    rewrite userData_skipn. unfold ed at 1. rewrite Hdata, Hafter. simpl.
    now rewrite next_skipn. }
  destruct (paint_blocks_total (range_from (S L) (blockCount ed - L)) Hc
              after (skipn (S L) (blocks ed))) as (p1 & l1 & Hp1 & Hl1).
  rewrite <- Hloop in Hp1.
  destruct (paintEvent_after_blocks event Hc Hp1) as (final & l2 & Hfin & Hl2).
  exists before, after, final, (l1 ++ l2).
  repeat split; try assumption.
  now rewrite Hl2, Hl1, app_assoc.
Qed.

Lemma paintEvent_line_marks_witness :
  exists before after final rest,
    paint_blocks area_small_document
      (fillRect new_painter (mkQRect 0 0 12 442) (EditorQColor sideareas_color))
      (range 0) small_document = Ok before /\
    paint_block area_small_document before 0
      (nth 0 small_document None) = Ok after /\
    ops after =
      ops before ++
      [mark error_color (mkQRect (4 / 2) ((4 + (4 + 17)) / 2 - 2 / 2) 8 2)] ++
      [mark todo_color (mkQRect (4 / 2) ((4 + (4 + 17)) / 2 - 2 / 2) 8 2)] ++
      [mark breakpoint_color
         (mkQRect (4 / 2) ((4 + (4 + 17)) / 2 - 2 / 2) 8 2)] /\
    paint_blocks area_small_document
      (fillRect new_painter (mkQRect 0 0 12 442) (EditorQColor sideareas_color))
      (range 4) small_document =
    paint_blocks area_small_document after (range_from 1 3)
      (skipn 1 small_document) /\
    paintEvent area_small_document
      (mkPaintInput (mkQRect 0 0 12 442) false (mkQPoint 3 200)) = Ok final /\
    ops final = ops after ++ rest.
Proof.
  refine (@paintEvent_line_marks area_small_document
            (mkPaintInput (mkQRect 0 0 12 442) false (mkQPoint 3 200))
            0%nat
            (mkBlockUserData [("unused import"%string, false);
                              ("undefined name"%string, true)] true true)
            (mkQRect (4 / 2) ((4 + (4 + 17)) / 2 - 2 / 2) 8 2) _ _ _).
  - reflexivity.
  - discriminate.
  - vm_compute. reflexivity.
Defined.

(** ** The shell widget *)

(** C8. [reset_namespace] sends the reset directive if and only if the
    user confirms: when the dialog is declined the widget, and with it the
    list of sources sent to the backend, is unchanged; when it is accepted
    exactly one source is sent, ["%reset -f"], and nothing else changes. *)
Theorem reset_namespace_confirmation (self : Shell.ShellWidget) :
  Shell.reset_namespace self Shell.No = self /\
  Shell.executed (Shell.reset_namespace self Shell.Yes) =
    Shell.executed self ++ ["%reset -f"%string] /\
  Shell.ipyclient (Shell.reset_namespace self Shell.Yes) =
    Shell.ipyclient self /\
  Shell.exit_requested (Shell.reset_namespace self Shell.Yes) =
    Shell.exit_requested self /\
  forall reply,
    (exists source,
       Shell.executed (Shell.reset_namespace self reply) =
       Shell.executed self ++ [source]) <->
    reply = Shell.Yes.
Proof.
  repeat split; try reflexivity.
  - intros [source H]. destruct reply; [reflexivity|].
    change (Shell.reset_namespace self Shell.No) with self in H.
    apply (f_equal (@List.length string)) in H.
    rewrite length_app in H. simpl in H. exfalso. lia.
  - intros ->. eexists. reflexivity.
Qed.

(** C9, as stated, fails: after binding client 1 and then client 2 the
    stored reference is client 2, but the exit-requested signal still
    invokes the exit handler of client 1, before that of client 2. *)
Lemma rebinding_keeps_first_connection :
  let self := Shell.set_ipyclient (Shell.set_ipyclient Shell.init 1%nat) 2%nat in
  Shell.ipyclient self = Some 2%nat /\
  Shell.emit (Shell.exit_requested self) =
    [Shell.exit_callback 1%nat; Shell.exit_callback 2%nat] /\
  In (Shell.exit_callback 1%nat) (Shell.emit (Shell.exit_requested self)) /\
  Shell.emit (Shell.exit_requested self) <> [Shell.exit_callback 2%nat].
Proof.
  simpl. repeat split.
  - now left.
  - discriminate.
Qed.

(** C9, amended. For every pair of clients [c1], [c2], binding [c1] and
    then [c2] leaves [c2] as the stored reference, and adds both exit
    handlers to the exit-requested signal: emitting it invokes what was
    connected before, then the handler of [c1], then the handler of [c2].
    The connection to [c1] is not removed. *)
Theorem set_ipyclient_twice (self : Shell.ShellWidget) (c1 c2 : Shell.Client) :
  let self' := Shell.set_ipyclient (Shell.set_ipyclient self c1) c2 in
  Shell.ipyclient self' = Some c2 /\
  Shell.emit (Shell.exit_requested self') =
    Shell.emit (Shell.exit_requested self) ++
    [Shell.exit_callback c1; Shell.exit_callback c2] /\
  Shell.executed self' = Shell.executed self.
Proof.
  simpl. repeat split.
  unfold Shell.emit, Shell.connect. now rewrite <- app_assoc.
Qed.

(** * Further properties of the scroll flag panel *)

(** ** The two mappings *)

Lemma scale_factor_nonzero (self : ScrollFlagArea) :
  (0 < groove_height (verticalScrollBar (editor self)))%Z ->
  (0 < get_scrollbar_value_height self)%Z ->
  ~ get_scrollbar_position_height self /
    inject_Z (get_scrollbar_value_height self) == 0.
Proof.
  intros Hh Hs E. pose proof (scale_factor_pos self Hh Hs) as P.
  rewrite E in P. now apply Qlt_irrefl in P.
Qed.



(** With a positive groove height and value span, mapping a pixel to a
    value and back gives the pixel again when it is at or below the top of
    the groove ([offset <= y]), and the top of the groove otherwise: the
    clamp of [position_to_value] shows as a clamp on pixels. *)
Theorem value_to_position_position_to_value (self : ScrollFlagArea) (y : Q)
  (Hh : (0 < groove_height (verticalScrollBar (editor self)))%Z)
  (Hspan : (0 < get_scrollbar_value_height self)%Z) :
  exists value position,
    position_to_value self y = Ok value /\
    value_to_position self value = Ok position /\
    (inject_Z (offset self) <= y -> position == y) /\
    (y <= inject_Z (offset self) -> position == inject_Z (offset self)).
Proof.
  pose proof (scale_factor_pos self Hh Hspan) as Hs.
  pose proof (scale_factor_nonzero Hh Hspan) as Hnz.
  eexists. eexists.
  split; [apply position_to_value_ok; assumption|].
  split; [apply value_to_position_ok; lia|].
  set (s := get_scrollbar_position_height self /
            inject_Z (get_scrollbar_value_height self)) in *.
  set (mn := inject_Z (minimum (verticalScrollBar (editor self)))).
  set (off := inject_Z (offset self)).
  split.
  - intros Hy.
    assert (Hq : 0 <= (y - off) / s).
    { apply Qle_shift_div_l; [exact Hs | lra]. }
    rewrite (py_max_0_nonneg Hq). field. exact Hnz.
  - intros Hy.
    assert (Hq : (y - off) / s <= 0).
    { apply Qle_shift_div_r; [exact Hs | lra]. }
    rewrite (py_max_0_nonpos Hq). ring.
Qed.

Lemma value_to_position_position_to_value_witness :
  exists value position,
    position_to_value area_100_lines 216 = Ok value /\
    value_to_position area_100_lines value = Ok position /\
    (16 <= 216 -> position == 216) /\
    (216 <= 16 -> position == 16).
Proof.
  apply (value_to_position_position_to_value area_100_lines 216); reflexivity.
Defined.

Lemma value_to_position_bounds (self : ScrollFlagArea) (v : Q)
  (Hh : (0 <= groove_height (verticalScrollBar (editor self)))%Z)
  (Hspan : (0 < get_scrollbar_value_height self)%Z)
  (Hmin : inject_Z (minimum (verticalScrollBar (editor self))) <= v)
  (Hmax : v <= inject_Z (maximum (verticalScrollBar (editor self)) +
                         pageStep (verticalScrollBar (editor self)))) :
  exists position,
    value_to_position self v = Ok position /\
    inject_Z (offset self) <= position /\
    position <= inject_Z (offset self) + get_scrollbar_position_height self /\
    (v == inject_Z (minimum (verticalScrollBar (editor self))) ->
     position == inject_Z (offset self)) /\
    (v == inject_Z (maximum (verticalScrollBar (editor self)) +
                    pageStep (verticalScrollBar (editor self))) ->
     position ==
       inject_Z (offset self) + get_scrollbar_position_height self).
Proof.
  eexists. split; [apply value_to_position_ok; lia|].
  unfold get_scrollbar_position_height, get_scrollbar_value_height in *.
  set (vsb := verticalScrollBar (editor self)) in *.
  rewrite inject_Z_plus in Hmax.
  assert (Hsp : inject_Z (maximum vsb - minimum vsb + pageStep vsb) ==
                inject_Z (maximum vsb) - inject_Z (minimum vsb) +
                inject_Z (pageStep vsb)).
  { rewrite inject_Z_plus. unfold Z.sub.
    rewrite inject_Z_plus, inject_Z_opp. ring. }
  assert (Hpos : 0 < inject_Z (maximum vsb - minimum vsb + pageStep vsb))
    by now apply inject_Z_pos.
  assert (Hh' : 0 <= inject_Z (groove_height vsb)).
  { change 0 with (inject_Z 0). now rewrite <- Zle_Qle. }
  set (sp := inject_Z (maximum vsb - minimum vsb + pageStep vsb)) in *.
  set (h := inject_Z (groove_height vsb)) in *.
  set (mn := inject_Z (minimum vsb)) in *.
  set (off := inject_Z (offset self)).
  assert (Hnz : ~ sp == 0) by (intros E; rewrite E in Hpos; lra).
  assert (E : (v - mn) * (h / sp) == (v - mn) * h / sp) by (field; exact Hnz).
  assert (Hlo : 0 <= (v - mn) * h / sp).
  { apply Qle_shift_div_l; [exact Hpos | nra]. }
  assert (Hhi : (v - mn) * h / sp <= h).
  { apply Qle_shift_div_r; [exact Hpos | nra]. }
  split; [rewrite E; lra|]. split; [rewrite E; lra|]. split.
  - intros Ev. rewrite Ev. ring.
  - intros Ev. rewrite Ev.
    setoid_replace (inject_Z (maximum vsb + pageStep vsb) - mn)
      with sp by (rewrite Hsp, inject_Z_plus; ring).
    field. exact Hnz.
Qed.

(** With a positive value span and a groove height that is not negative,
    every value from the minimum to the maximum plus one page step is
    mapped into the groove: [offset <= position <= offset + groove height].
    The ends are reached at the minimum and at maximum + page step. *)
Theorem value_to_position_in_groove (self : ScrollFlagArea) (v : Q)
  (Hh : (0 <= groove_height (verticalScrollBar (editor self)))%Z)
  (Hspan : (0 < get_scrollbar_value_height self)%Z)
  (Hmin : inject_Z (minimum (verticalScrollBar (editor self))) <= v)
  (Hmax : v <= inject_Z (maximum (verticalScrollBar (editor self)) +
                         pageStep (verticalScrollBar (editor self)))) :
  exists position,
    value_to_position self v = Ok position /\
    inject_Z (offset self) <= position /\
    position <= inject_Z (offset self) + get_scrollbar_position_height self /\
    (v == inject_Z (minimum (verticalScrollBar (editor self))) ->
     position == inject_Z (offset self)) /\
    (v == inject_Z (maximum (verticalScrollBar (editor self)) +
                    pageStep (verticalScrollBar (editor self))) ->
     position ==
       inject_Z (offset self) + get_scrollbar_position_height self).
Proof.
  exact (@value_to_position_bounds self v Hh Hspan Hmin Hmax).
Qed.

Lemma value_to_position_in_groove_witness :
  exists position,
    value_to_position area_100_lines 100 = Ok position /\
    16 <= position /\ position <= 16 + 500 /\
    (100 == 0 -> position == 16) /\
    (100 == 100 -> position == 16 + 500).
Proof.
  apply (value_to_position_in_groove area_100_lines (v := 100));
    first [reflexivity | vm_compute; discriminate].
Defined.

(** ** Flags and indicator in scaled mode *)

(** With the scrollbar visible, a positive value span and a groove height
    that is not negative, the flag of every line [L] with
    [minimum <= L < maximum + pageStep] is centred inside the groove. *)
Theorem flag_center_in_groove (self : ScrollFlagArea) (L : Z)
  (Hvis : slider self = true)
  (Hh : (0 <= groove_height (verticalScrollBar (editor self)))%Z)
  (Hspan : (0 < get_scrollbar_value_height self)%Z)
  (Hmin : (minimum (verticalScrollBar (editor self)) <= L)%Z)
  (Hmax : (L < maximum (verticalScrollBar (editor self)) +
               pageStep (verticalScrollBar (editor self)))%Z) :
  exists r,
    make_flag_qrect self L = Ok r /\
    inject_Z (offset self) <= rect_center_y r /\
    rect_center_y r <=
      inject_Z (offset self) + get_scrollbar_position_height self.
Proof.
  assert (H1 : inject_Z (minimum (verticalScrollBar (editor self))) <=
               inject_Z L + 0.5).
  { rewrite Zle_Qle in Hmin. lra. }
  assert (H2 : inject_Z L + 0.5 <=
               inject_Z (maximum (verticalScrollBar (editor self)) +
                         pageStep (verticalScrollBar (editor self)))).
  { assert (H : (L + 1 <= maximum (verticalScrollBar (editor self)) +
                          pageStep (verticalScrollBar (editor self)))%Z) by lia.
    rewrite Zle_Qle, (inject_Z_plus L 1) in H.
    change (inject_Z 1) with 1 in H. lra. }
  destruct (value_to_position_bounds self Hh Hspan H1 H2)
    as (position & Hp & Hlo & Hhi & _).
  rewrite (make_flag_qrect_visible_eq self L Hvis), Hp. simpl.
  eexists. split; [reflexivity|].
  assert (E : rect_center_y
                (mkQRect (inject_Z FLAGS_DX / 2)
                   (position - inject_Z FLAGS_DY / 2)
                   (inject_Z (WIDTH - FLAGS_DX)) (inject_Z FLAGS_DY))
              == position).
  { unfold rect_center_y, FLAGS_DY; simpl. field. }
  rewrite E. split; assumption.
Qed.

Lemma flag_center_in_groove_witness :
  exists r,
    make_flag_qrect area_100_lines 99 = Ok r /\
    16 <= rect_center_y r /\ rect_center_y r <= 16 + 500.
Proof.
  apply (flag_center_in_groove area_100_lines (L := 99));
    first [reflexivity | vm_compute; discriminate].
Defined.

(** Whenever [make_slider_range] returns, the height of the indicator is
    the scaled page step plus [offset - minimum * s]; it is the scaled page
    step exactly when the groove offset equals the scaled minimum (with a
    minimum of 0: when the groove starts at the top of the scrollbar). *)
Theorem slider_height_excess (self : ScrollFlagArea) (pos : QPoint)
  (r : QRect)
  (Hr : make_slider_range self pos = Ok r) :
  exists s,
    get_scale_factor self = Ok s /\
    rect_height r ==
      inject_Z (pageStep (verticalScrollBar (editor self))) * s +
      (inject_Z (offset self) -
       inject_Z (minimum (verticalScrollBar (editor self))) * s) /\
    (rect_height r ==
       inject_Z (pageStep (verticalScrollBar (editor self))) * s <->
     inject_Z (offset self) ==
       inject_Z (minimum (verticalScrollBar (editor self))) * s).
Proof.
  unfold make_slider_range, value_to_position in Hr.
  destruct (get_scale_factor self) as [s|e] eqn:Hs; simpl in Hr;
    [|discriminate].
  injection Hr as <-. exists s. split; [reflexivity|]. simpl.
  split; [ring|]. split; intros H; lra.
Qed.

Lemma slider_height_excess_witness :
  exists s,
    get_scale_factor area_100_lines = Ok s /\
    rect_height (slider_rect area_100_lines (mkQPoint 3 200)) ==
      20 * s + (16 - 0 * s) /\
    (rect_height (slider_rect area_100_lines (mkQPoint 3 200)) == 20 * s <->
     16 == 0 * s).
Proof.
  apply (slider_height_excess area_100_lines (mkQPoint 3 200)).
  reflexivity.
Defined.

(** The indicator follows the cursor: whenever [make_slider_range] returns
    and the cursor is far enough from both ends of the groove
    ([offset <= y - height/2 <= groove_height + offset - height]), the
    indicator is vertically centred on the cursor. *)
Theorem slider_follows_cursor (self : ScrollFlagArea) (pos : QPoint)
  (r : QRect)
  (Hr : make_slider_range self pos = Ok r)
  (Hlo : inject_Z (offset self) <=
         inject_Z (point_y pos) - rect_height r / 2)
  (Hhi : inject_Z (point_y pos) - rect_height r / 2 <=
         get_scrollbar_position_height self + inject_Z (offset self) -
         rect_height r) :
  rect_center_y r == inject_Z (point_y pos) /\
  rect_x r == 1 /\
  rect_width r == inject_Z WIDTH - 2.
Proof.
  unfold make_slider_range in Hr.
  destruct (value_to_position self
              (inject_Z (pageStep (verticalScrollBar (editor self)))))
    as [sh|e]; simpl in Hr; [|discriminate].
  injection Hr as <-. unfold rect_center_y in *. simpl in *.
  split; [|split; [reflexivity | reflexivity]].
  match goal with |- py_max ?a (py_min ?b ?c) + _ == _ =>
    destruct (py_min_cases b c) as [[H1 E1]|[H1 E1]]; rewrite E1;
    [ destruct (py_max_cases a b) as [[H2 E2]|[H2 E2]]; rewrite E2
    | destruct (py_max_cases a c) as [[H2 E2]|[H2 E2]]; rewrite E2 ]
  end; lra.
Qed.

Lemma slider_follows_cursor_witness :
  rect_center_y (slider_rect area_100_lines (mkQPoint 3 200)) == 200 /\
  rect_x (slider_rect area_100_lines (mkQPoint 3 200)) == 1 /\
  rect_width (slider_rect area_100_lines (mkQPoint 3 200)) == 12 - 2.
Proof.
  apply (@slider_follows_cursor area_100_lines (mkQPoint 3 200));
    first [reflexivity | vm_compute; discriminate].
Defined.

(** ** The operations of a repaint *)

Lemma make_flag_qrect_flag_rect (self : ScrollFlagArea) (L : Z) :
  can_paint self -> make_flag_qrect self L = Ok (flag_rect self L).
Proof.
  intros Hc. destruct (make_flag_qrect_total Hc L) as [r Hr].
  unfold flag_rect. now rewrite Hr.
Qed.

Lemma paint_block_expected (self : ScrollFlagArea) (painter : QPainter)
  (L : Z) (data : option BlockUserData) :
  can_paint self ->
  exists p, paint_block self painter L data = Ok p /\
            ops p = ops painter ++ expected_block_marks self L data.
Proof.
  intros Hc. pose proof (make_flag_qrect_flag_rect L Hc) as Hr.
  destruct data as [[ca td bp]|]; simpl.
  2:{ exists painter. now rewrite app_nil_r. }
  rewrite <- analysis_color_spec. rewrite Hr.
  destruct ca as [|c ca], td, bp; simpl;
    eexists; (split; [reflexivity|]); simpl; unfold mark;
    rewrite <- ?app_assoc, ?app_nil_r; reflexivity.
Qed.

Lemma paint_blocks_expected (self : ScrollFlagArea) :
  can_paint self ->
  forall n a blk painter,
  exists p, paint_blocks self painter (range_from a n) blk = Ok p /\
            ops p = ops painter ++ expected_blocks_marks self a (firstn n blk).
Proof.
  intros Hc. induction n as [|n IH]; intros a blk painter.
  - exists painter. simpl. now rewrite app_nil_r.
  - change (range_from a (S n)) with (Z.of_nat a :: range_from (S a) n).
    simpl.
    destruct (paint_block_expected painter (Z.of_nat a) (userData blk) Hc)
      as (p1 & -> & H1). simpl.
    destruct (IH (S a) (next blk) p1) as (p2 & -> & H2).
    exists p2. split; [reflexivity|]. rewrite H2, H1.
    destruct blk as [|d blk]; simpl.
    + rewrite firstn_nil. simpl. now rewrite !app_nil_r.
    + now rewrite app_assoc.
Qed.

Lemma paint_lines_expected (self : ScrollFlagArea) :
  can_paint self ->
  forall lines painter,
  exists p, paint_lines self painter lines = Ok p /\
            ops p = ops painter ++
                    map (fun L => DrawRect (pen painter) (brush painter)
                                           (flag_rect self L)) lines.
Proof.
  intros Hc. induction lines as [|x lines IH]; intros painter; simpl.
  - exists painter. now rewrite app_nil_r.
  - rewrite (make_flag_qrect_flag_rect x Hc). simpl.
    destruct (IH (drawRect painter (flag_rect self x))) as (p & -> & Hp).
    exists p. split; [reflexivity|]. rewrite Hp. simpl.
    now rewrite <- app_assoc.
Qed.

Lemma paint_marks_expected (self : ScrollFlagArea) (c : EditorColor)
  (lines : list Z) (painter : QPainter) :
  can_paint self ->
  exists p,
    match lines with
    | [] => Ok painter
    | _ :: _ => paint_lines self (set_painter painter c) lines
    end = Ok p /\
    ops p = ops painter ++ expected_lines_marks self c lines.
Proof.
  intros Hc. destruct lines as [|x lines].
  - exists painter. simpl. now rewrite app_nil_r.
  - apply (paint_lines_expected Hc (x :: lines) (set_painter painter c)).
Qed.

Lemma paintEvent_ops_when_can_paint (self : ScrollFlagArea) (event : PaintInput)
  (Hc : can_paint self) :
  exists p, paintEvent self event = Ok p /\ ops p = expected_ops self event.
Proof.
  unfold paintEvent, expected_ops.
  destruct (paint_blocks_expected Hc (blockCount (editor self) + 1) 0
              (blocks (editor self))
              (fillRect new_painter (event_rect event)
                        (EditorQColor sideareas_color)))
    as (p1 & H1 & O1).
  change (range_from 0 (blockCount (editor self) + 1))
    with (range (blockCount (editor self) + 1)) in H1.
  rewrite H1. simpl.
  rewrite firstn_all2 in O1 by (unfold blockCount; lia).
  destruct (paint_marks_expected occurrence_color
              (occurrences (editor self)) p1 Hc) as (p2 & -> & O2).
  simpl.
  destruct (paint_marks_expected found_results_color
              (found_results (editor self)) p2 Hc) as (p3 & -> & O3).
  simpl. unfold expected_indicator, indicator_wanted.
  destruct ((rect_contains self (cursor_pos event) || alt event) &&
            slider self) eqn:Hind.
  - apply andb_true_iff in Hind. destruct Hind as [_ Hvis].
    destruct (make_slider_range_total (cursor_pos event) Hc Hvis) as [r Hr].
    unfold slider_rect. rewrite Hr. simpl.
    eexists. split; [reflexivity|]. simpl.
    rewrite O3, O2, O1. simpl. now rewrite <- !app_assoc.
  - exists p3. split; [reflexivity|].
    rewrite O3, O2, O1. simpl. now rewrite <- !app_assoc, app_nil_r.
Qed.

(** Whenever the flags can be placed (the scrollbar is hidden, or its value
    span is not zero) [paintEvent] returns, and the painter has received, in
    this order: the fill of the event rectangle in the side area color; for
    every block of the document in turn its diagnostics, todo and breakpoint
    marks; one mark per occurrence; one mark per found result; and, if the
    cursor is on the panel or Alt is held while the scrollbar is visible,
    the indicator. *)
Theorem paintEvent_expected_ops (self : ScrollFlagArea) (event : PaintInput)
  (Hc : can_paint self) :
  exists p, paintEvent self event = Ok p /\ ops p = expected_ops self event.
Proof.
  exact (@paintEvent_ops_when_can_paint self event Hc).
Qed.

Lemma paintEvent_expected_ops_witness :
  exists p,
    paintEvent area_100_lines_flags hover_event = Ok p /\
    ops p = expected_ops area_100_lines_flags hover_event.
Proof.
  apply (@paintEvent_expected_ops area_100_lines_flags hover_event).
  right. vm_compute. discriminate.
Defined.

(** [paintEvent] runs its first loop over [range(blockCount() + 1)], one
    iteration more than there are blocks.  The last iteration is on the
    invalid block after the last one, which has no user data: the loop
    does exactly what it does over [range(blockCount())], whether it
    returns or raises. *)
Theorem paint_blocks_extra_iteration (self : ScrollFlagArea)
  (painter : QPainter) :
  paint_blocks self painter (range (blockCount (editor self) + 1))
               (blocks (editor self)) =
  paint_blocks self painter (range (blockCount (editor self)))
               (blocks (editor self)).
Proof.
  change (range (blockCount (editor self) + 1))
    with (range_from 0 (blockCount (editor self) + 1)).
  rewrite range_from_app, paint_blocks_app.
  change (range_from 0 (blockCount (editor self)))
    with (range (blockCount (editor self))).
  destruct (paint_blocks self painter (range (blockCount (editor self)))
              (blocks (editor self))) as [p|e]; simpl; [|reflexivity].
  rewrite userData_skipn.
  unfold range. rewrite length_map, length_seq.
  replace (nth_error (blocks (editor self)) (blockCount (editor self)))
    with (@None (option BlockUserData)); [reflexivity|].
  symmetry. apply nth_error_None. unfold blockCount. lia.
Qed.

(** ** Repainting with a visible scrollbar of zero span *)

Lemma paint_block_zero_span (self : ScrollFlagArea) (painter : QPainter)
  (L : Z) (data : option BlockUserData) :
  slider self = true -> get_scrollbar_value_height self = 0%Z ->
  paint_block self painter L data =
  if no_flags data then Ok painter else Raise ZeroDivisionError.
Proof.
  intros Hvis Hspan.
  destruct (scaled_mappings_raise_on_zero_span self Hspan) as [_ Hf].
  destruct data as [[ca td bp]|]; simpl; [|reflexivity].
  rewrite (Hf L Hvis).
  destruct ca as [|c ca], td, bp; reflexivity.
Qed.

Lemma paint_blocks_zero_span (self : ScrollFlagArea) :
  slider self = true -> get_scrollbar_value_height self = 0%Z ->
  forall lines blk painter,
    paint_blocks self painter lines blk =
    if forallb no_flags (firstn (List.length lines) blk)
    then Ok painter else Raise ZeroDivisionError.
Proof.
  intros Hvis Hspan. induction lines as [|x lines IH]; intros blk painter.
  - reflexivity.
  - simpl paint_blocks.
    rewrite (@paint_block_zero_span self painter x (userData blk) Hvis Hspan).
    destruct blk as [|d blk]; simpl.
    + rewrite IH, firstn_nil. reflexivity.
    + destruct (no_flags d); simpl; [apply IH | reflexivity].
Qed.

Lemma paint_marks_zero_span (self : ScrollFlagArea) (c : EditorColor)
  (lines : list Z) (painter : QPainter) :
  slider self = true -> get_scrollbar_value_height self = 0%Z ->
  match lines with
  | [] => Ok painter
  | _ :: _ => paint_lines self (set_painter painter c) lines
  end = if is_nil lines then Ok painter else Raise ZeroDivisionError.
Proof.
  intros Hvis Hspan.
  destruct (scaled_mappings_raise_on_zero_span self Hspan) as [_ Hf].
  destruct lines as [|x lines]; simpl; [reflexivity|].
  now rewrite (Hf x Hvis).
Qed.

Lemma paintEvent_when_zero_span (self : ScrollFlagArea) (event : PaintInput)
  (Hvis : slider self = true)
  (Hspan : get_scrollbar_value_height self = 0%Z) :
  paintEvent self event =
  if nothing_to_draw self event
  then Ok (fillRect new_painter (event_rect event)
                    (EditorQColor sideareas_color))
  else Raise ZeroDivisionError.
Proof.
  unfold paintEvent, nothing_to_draw.
  rewrite (@paint_blocks_zero_span self Hvis Hspan).
  unfold range. rewrite length_map, length_seq.
  rewrite firstn_all2 by (unfold blockCount; lia).
  destruct (forallb no_flags (blocks (editor self))); simpl; [|reflexivity].
  rewrite (@paint_marks_zero_span self occurrence_color _ _ Hvis Hspan).
  destruct (is_nil (occurrences (editor self))); simpl; [|reflexivity].
  rewrite (@paint_marks_zero_span self found_results_color _ _ Hvis Hspan).
  destruct (is_nil (found_results (editor self))); simpl; [|reflexivity].
  fold (indicator_wanted self event).
  destruct (indicator_wanted self event); simpl; [|reflexivity].
  unfold make_slider_range.
  destruct (scaled_mappings_raise_on_zero_span self Hspan) as [Hv _].
  now rewrite Hv.
Qed.

(** With a visible scrollbar whose value span is zero, [paintEvent] raises
    [ZeroDivisionError] as soon as there is one thing to place: a block
    with diagnostics, a todo or a breakpoint, an occurrence, a found
    result, or the indicator (cursor on the panel or Alt held).  Only when
    there is none does it return, having painted the background alone. *)
Theorem paintEvent_zero_span (self : ScrollFlagArea) (event : PaintInput)
  (Hvis : slider self = true)
  (Hspan : get_scrollbar_value_height self = 0%Z) :
  paintEvent self event =
  if nothing_to_draw self event
  then Ok (fillRect new_painter (event_rect event)
                    (EditorQColor sideareas_color))
  else Raise ZeroDivisionError.
Proof.
  exact (@paintEvent_when_zero_span self event Hvis Hspan).
Qed.

Lemma paintEvent_zero_span_witness :
  paintEvent area_zero_span_todo idle_event = Raise ZeroDivisionError /\
  paintEvent area_zero_span idle_event =
    Ok (fillRect new_painter (event_rect idle_event)
                 (EditorQColor sideareas_color)).
Proof.
  split.
  - exact (@paintEvent_zero_span area_zero_span_todo idle_event
             eq_refl eq_refl).
  - exact (@paintEvent_zero_span area_zero_span idle_event eq_refl eq_refl).
Defined.

(** ** The indicator *)

Lemma expected_blocks_marks_no_indicator (self : ScrollFlagArea) :
  forall blk start,
    existsb is_indicator (expected_blocks_marks self start blk) = false.
Proof.
  induction blk as [|d blk IH]; intros start; simpl; [reflexivity|].
  rewrite existsb_app, IH, orb_false_r.
  destruct d as [[ca td bp]|]; simpl; [|reflexivity].
  destruct ca as [|c ca], td, bp; reflexivity.
Qed.

Lemma expected_lines_marks_no_indicator (self : ScrollFlagArea)
  (c : EditorColor) (lines : list Z) :
  existsb is_indicator (expected_lines_marks self c lines) = false.
Proof.
  induction lines as [|x lines IH]; simpl; [reflexivity | exact IH].
Qed.

(** Whenever [paintEvent] returns, the indicator has been painted if and
    only if the cursor is on the panel or Alt is held, and the scrollbar is
    visible; it is then the last operation and the only one painted with
    the indicator's pen. *)
Theorem indicator_painted_iff (self : ScrollFlagArea) (event : PaintInput)
  (p : QPainter)
  (Hp : paintEvent self event = Ok p) :
  existsb is_indicator (ops p) = indicator_wanted self event /\
  (indicator_wanted self event = true ->
   exists before,
     ops p = before ++
             [DrawRect (Some (GrayAlpha 0.85)) (Some (GrayAlpha 0.5))
                       (slider_rect self (cursor_pos event))] /\
     existsb is_indicator before = false).
Proof.
  assert (Hdec : can_paint self \/
                 (slider self = true /\
                  get_scrollbar_value_height self = 0%Z)).
  { unfold can_paint. destruct (slider self); [|now left; left].
    destruct (Z.eq_dec (get_scrollbar_value_height self) 0) as [E|E];
      [now right | now left; right]. }
  destruct Hdec as [Hc|[Hvis Hspan]].
  - destruct (@paintEvent_ops_when_can_paint self event Hc) as (p' & Hp' & Hops).
    rewrite Hp in Hp'. injection Hp' as <-.
    rewrite Hops. unfold expected_ops, expected_indicator.
    assert (Hpre : existsb is_indicator
              ([FillRect (event_rect event) (EditorQColor sideareas_color)] ++
               expected_blocks_marks self 0 (blocks (editor self)) ++
               expected_lines_marks self occurrence_color
                 (occurrences (editor self)) ++
               expected_lines_marks self found_results_color
                 (found_results (editor self))) = false).
    { rewrite !existsb_app, expected_blocks_marks_no_indicator,
        !expected_lines_marks_no_indicator. reflexivity. }
    destruct (indicator_wanted self event).
    + split.
      * rewrite !app_assoc, existsb_app. simpl. apply orb_true_r.
      * intros _. eexists. split; [|exact Hpre].
        now rewrite <- !app_assoc.
    + split; [|discriminate].
      rewrite !app_assoc, app_nil_r. rewrite <- !app_assoc. exact Hpre.
  - rewrite (@paintEvent_when_zero_span self event Hvis Hspan) in Hp.
    destruct (nothing_to_draw self event) eqn:Hn; [|discriminate].
    injection Hp as <-.
    unfold nothing_to_draw in Hn. apply andb_true_iff in Hn.
    destruct Hn as [_ Hn]. apply negb_true_iff in Hn.
    rewrite Hn. split; [reflexivity | discriminate].
Qed.

Lemma indicator_painted_iff_witness :
  existsb is_indicator
    (ops (mkQPainter (Some (GrayAlpha 0.85)) (Some (GrayAlpha 0.5))
                     (expected_ops area_100_lines_flags hover_event))) =
  indicator_wanted area_100_lines_flags hover_event /\
  (indicator_wanted area_100_lines_flags hover_event = true ->
   exists before,
     ops (mkQPainter (Some (GrayAlpha 0.85)) (Some (GrayAlpha 0.5))
                     (expected_ops area_100_lines_flags hover_event)) =
     before ++
     [DrawRect (Some (GrayAlpha 0.85)) (Some (GrayAlpha 0.5))
               (slider_rect area_100_lines_flags (cursor_pos hover_event))] /\
     existsb is_indicator before = false).
Proof.
  apply (@indicator_painted_iff area_100_lines_flags hover_event).
  vm_compute. reflexivity.
Defined.

(** ** Clicking on the panel *)

Lemma py_int_div_2 (version : PyVersion) (a : Z) :
  exists half,
    py_int_div version a 2 = Ok half /\
    (version = Python3 -> half = inject_Z a / 2) /\
    (version = Python2 -> half = inject_Z (a / 2)) /\
    (Z.even a = true -> half == inject_Z a / 2) /\
    (version = Python2 -> Z.odd a = true -> half == inject_Z a / 2 - 1 / 2) /\
    ((0 <= a)%Z -> 0 <= half).
Proof.
  assert (Hdm : inject_Z a ==
                2 * inject_Z (a / 2) + inject_Z (a mod 2)).
  { rewrite (Z.div_mod a 2) at 1 by lia.
    rewrite inject_Z_plus, inject_Z_mult. reflexivity. }
  assert (Hq : (0 <= a)%Z -> 0 <= inject_Z (a / 2)).
  { intros Ha. change 0 with (inject_Z 0). rewrite <- Zle_Qle.
    apply Z.div_pos; lia. }
  assert (Ha' : (0 <= a)%Z -> 0 <= inject_Z a).
  { intros Ha. change 0 with (inject_Z 0). now rewrite <- Zle_Qle. }
  rewrite Zmod_even in Hdm.
  destruct version; eexists; (split; [reflexivity|]).
  - split; [discriminate|]. split; [reflexivity|]. split; [|split].
    + intros He. rewrite He in Hdm. rewrite Hdm. field.
    + intros _ Ho. rewrite <- Z.negb_even in Ho.
      apply negb_true_iff in Ho. rewrite Ho in Hdm. rewrite Hdm.
      change (inject_Z 1) with 1. field.
    + exact Hq.
  - split; [reflexivity|]. split; [discriminate|]. split; [|split].
    + intros _. reflexivity.
    + discriminate.
    + intros Ha. specialize (Ha' Ha). change (inject_Z 2) with 2.
      apply Qle_shift_div_l; lra.
Qed.

(** A click at a pixel [y] at or below the top of the groove asks the
    scrollbar for the value that puts the middle of the page on that pixel:
    under Python 3, and under Python 2 when the page step is even,
    [value_to_position(request + pageStep/2)] is [y]; under Python 2 with an
    odd page step the floor in [pageStep()/2] leaves the middle of the page
    half a line ([s/2] pixels) below the click. *)
Theorem mousePressEvent_centres (version : PyVersion) (self : ScrollFlagArea)
  (pos : QPoint)
  (Hh : (0 < groove_height (verticalScrollBar (editor self)))%Z)
  (Hspan : (0 < get_scrollbar_value_height self)%Z)
  (Hy : (offset self <= point_y pos)%Z) :
  let page := inject_Z (pageStep (verticalScrollBar (editor self))) in
  exists s request centre,
    get_scale_factor self = Ok s /\
    mousePressEvent version self pos = Ok request /\
    value_to_position self (request + page / 2) = Ok centre /\
    (version = Python3 \/
     Z.even (pageStep (verticalScrollBar (editor self))) = true ->
     centre == inject_Z (point_y pos)) /\
    (version = Python2 ->
     Z.odd (pageStep (verticalScrollBar (editor self))) = true ->
     centre == inject_Z (point_y pos) + s / 2).
Proof.
  intros page.
  pose proof (scale_factor_pos self Hh Hspan) as Hs.
  pose proof (scale_factor_nonzero Hh Hspan) as Hnz.
  destruct (py_int_div_2 version (pageStep (verticalScrollBar (editor self))))
    as (half & Hhalf & H3 & H2 & Heven & Hodd & _).
  unfold mousePressEvent.
  rewrite (position_to_value_ok self _ Hh Hspan). cbn [bind].
  rewrite Hhalf. cbn [bind].
  eexists. eexists. eexists.
  split; [apply get_scale_factor_ok; lia|].
  split; [reflexivity|].
  split; [apply value_to_position_ok; lia|].
  set (s := get_scrollbar_position_height self /
            inject_Z (get_scrollbar_value_height self)) in *.
  set (mn := inject_Z (minimum (verticalScrollBar (editor self)))).
  set (off := inject_Z (offset self)).
  set (y := inject_Z (point_y pos)).
  assert (Hoy : off <= y) by (unfold off, y; now rewrite <- Zle_Qle).
  assert (Hq : 0 <= (y - off) / s).
  { apply Qle_shift_div_l; [exact Hs | lra]. }
  rewrite (py_max_0_nonneg Hq).
  assert (E : (mn + (y - off) / s - half + page / 2 - mn) * s + off ==
              y + (page / 2 - half) * s) by (field; exact Hnz).
  split.
  - intros [Hv|He]; rewrite E.
    + rewrite (H3 Hv). fold page. ring.
    + rewrite (Heven He). fold page. ring.
  - intros Hv Ho. rewrite E, (Hodd Hv Ho). fold page. field.
Qed.

Lemma mousePressEvent_centres_witness :
  exists s request centre,
    get_scale_factor area_41_lines = Ok s /\
    mousePressEvent Python2 area_41_lines (mkQPoint 3 216) = Ok request /\
    value_to_position area_41_lines (request + 40 / 2) = Ok centre /\
    (Python2 = Python3 \/ Z.even 40 = true -> centre == 216) /\
    (Python2 = Python2 -> Z.odd 40 = true -> centre == 216 + s / 2).
Proof.
  apply (mousePressEvent_centres Python2 area_41_lines (mkQPoint 3 216)).
  - reflexivity.
  - reflexivity.
  - vm_compute. discriminate.
Defined.

(** A click at or above the top of the groove asks for the minimum less
    half a page step (floored under Python 2), which is never more than the
    minimum when the page step is not negative. *)
Theorem mousePressEvent_above_groove (version : PyVersion)
  (self : ScrollFlagArea) (pos : QPoint)
  (Hh : (0 < groove_height (verticalScrollBar (editor self)))%Z)
  (Hspan : (0 < get_scrollbar_value_height self)%Z)
  (Hpage : (0 <= pageStep (verticalScrollBar (editor self)))%Z)
  (Hy : (point_y pos <= offset self)%Z) :
  exists request half,
    mousePressEvent version self pos = Ok request /\
    py_int_div version (pageStep (verticalScrollBar (editor self))) 2 =
      Ok half /\
    request == inject_Z (minimum (verticalScrollBar (editor self))) - half /\
    request <= inject_Z (minimum (verticalScrollBar (editor self))).
Proof.
  pose proof (scale_factor_pos self Hh Hspan) as Hs.
  destruct (py_int_div_2 version (pageStep (verticalScrollBar (editor self))))
    as (half & Hhalf & _ & _ & _ & _ & Hpos).
  specialize (Hpos Hpage).
  unfold mousePressEvent.
  rewrite (position_to_value_ok self _ Hh Hspan). cbn [bind].
  rewrite Hhalf. cbn [bind].
  eexists. eexists. split; [reflexivity|]. split; [reflexivity|].
  assert (Hoy : inject_Z (point_y pos) <= inject_Z (offset self))
    by now rewrite <- Zle_Qle.
  rewrite py_max_0_nonpos.
  - split; [ring | lra].
  - apply Qle_shift_div_r; [exact Hs | lra].
Qed.

Lemma mousePressEvent_above_groove_witness :
  exists request half,
    mousePressEvent Python3 area_100_lines (mkQPoint 3 5) = Ok request /\
    py_int_div Python3 20 2 = Ok half /\
    request == 0 - half /\
    request <= 0.
Proof.
  apply (mousePressEvent_above_groove Python3 area_100_lines (mkQPoint 3 5));
    first [reflexivity | vm_compute; discriminate].
Defined.

(** * Further properties of the shell widget *)

(** ** Sequences of calls *)

Lemma run_app (self : Shell.ShellWidget) (l1 l2 : list ShellSession.Call) :
  ShellSession.run self (l1 ++ l2) =
  ShellSession.run (ShellSession.run self l1) l2.
Proof. apply fold_left_app. Qed.

Lemma run_invariant (calls : list ShellSession.Call) :
  forall self : Shell.ShellWidget,
  let self' := ShellSession.run self calls in
  Shell.ipyclient self' =
    last (map Some (ShellSession.bound_clients calls)) (Shell.ipyclient self) /\
  Shell.emit (Shell.exit_requested self') =
    Shell.emit (Shell.exit_requested self) ++
    map Shell.exit_callback (ShellSession.bound_clients calls) /\
  Shell.executed self' =
    Shell.executed self ++ ShellSession.sources calls.
Proof.
  induction calls as [|c calls IH] using rev_ind; intros self.
  - simpl. now rewrite !app_nil_r.
  - cbv zeta. rewrite run_app.
    destruct (IH self) as (Hc & He & Hx).
    unfold ShellSession.bound_clients, ShellSession.sources in *.
    rewrite !flat_map_app, !map_app. simpl.
    set (s1 := ShellSession.run self calls) in *.
    destruct c as [client| |[|]]; simpl; rewrite ?app_nil_r.
    + split; [now rewrite last_last|].
      split; [|exact Hx].
      unfold Shell.emit, Shell.connect in *. now rewrite He, app_assoc.
    + split; [exact Hc|]. split; [exact He|]. now rewrite Hx, app_assoc.
    + split; [exact Hc|]. split; [exact He|]. now rewrite Hx, app_assoc.
    + split; [exact Hc|]. split; [exact He|]. exact Hx.
Qed.

(** After any sequence of calls of [set_ipyclient], [clear_console] and
    [reset_namespace], the shell holds the client bound last (or the one it
    had, if none was bound); the exit-requested signal has, after the slots
    it had, one connection per [set_ipyclient] call in call order, none
    being ever removed; and the backend has received, after what it had,
    ["%clear"] for every [clear_console] and ["%reset -f"] for every
    confirmed [reset_namespace], in call order. *)
Theorem run_state (calls : list ShellSession.Call) :
  forall self : Shell.ShellWidget,
  let self' := ShellSession.run self calls in
  Shell.ipyclient self' =
    last (map Some (ShellSession.bound_clients calls)) (Shell.ipyclient self) /\
  Shell.emit (Shell.exit_requested self') =
    Shell.emit (Shell.exit_requested self) ++
    map Shell.exit_callback (ShellSession.bound_clients calls) /\
  Shell.executed self' =
    Shell.executed self ++ ShellSession.sources calls.
Proof.
  exact (@run_invariant calls).
Qed.

Lemma count_occ_exit_callback (l : list Shell.Client) (c : Shell.Client) :
  count_occ ShellSession.Slot_eq_dec (map Shell.exit_callback l)
            (Shell.exit_callback c) =
  count_occ Nat.eq_dec l c.
Proof.
  induction l as [|x l IH]; [reflexivity|].
  cbn [map]. destruct (Nat.eq_dec x c) as [E|E].
  - subst x. rewrite !count_occ_cons_eq by reflexivity. now rewrite IH.
  - rewrite !count_occ_cons_neq; [exact IH | exact E |].
    intros H. apply E. now injection H.
Qed.

(** Starting from a fresh shell, emitting the exit-requested signal invokes
    the exit handler of a client as many times as the client was bound:
    binding the same client again makes its handler run again. *)
Theorem exit_handler_invocations (calls : list ShellSession.Call)
  (c : Shell.Client) :
  count_occ ShellSession.Slot_eq_dec
    (Shell.emit (Shell.exit_requested (ShellSession.run Shell.init calls)))
    (Shell.exit_callback c) =
  count_occ Nat.eq_dec (ShellSession.bound_clients calls) c.
Proof.
  destruct (run_invariant calls Shell.init) as (_ & He & _).
  rewrite He. cbn [Shell.init Shell.exit_requested Shell.emit app].
  apply count_occ_exit_callback.
Qed.

(** [_context_menu_make] on a shell that went through a sequence of calls
    since its creation raises [AttributeError] exactly when no client was
    bound; otherwise it returns the inherited menu with the actions of the
    client bound last. *)
Theorem context_menu_needs_client (Menu : Type)
  (add_actions : Shell.Client -> Menu -> Menu)
  (calls : list ShellSession.Call) (menu : Menu) :
  let self := ShellSession.run Shell.init calls in
  (ShellSession._context_menu_make add_actions self menu =
     inr ShellSession.AttributeError <->
   ShellSession.bound_clients calls = []) /\
  forall before client,
    ShellSession.bound_clients calls = before ++ [client] ->
    ShellSession._context_menu_make add_actions self menu =
      inl (add_actions client menu).
Proof.
  cbv zeta. destruct (run_invariant calls Shell.init) as (Hc & _ & _).
  unfold ShellSession._context_menu_make. rewrite Hc. simpl.
  split.
  - destruct (ShellSession.bound_clients calls) as [|x l] using rev_ind.
    + simpl. split; reflexivity.
    + rewrite map_app. simpl. rewrite last_last.
      split; [discriminate|].
      intros H. destruct l; discriminate.
  - intros before client ->. rewrite map_app. simpl.
    now rewrite last_last.
Qed.

Lemma context_menu_needs_client_witness :
  let calls := [ShellSession.SetIpyclient 1%nat; ShellSession.ClearConsole;
                ShellSession.SetIpyclient 2%nat] in
  let add_actions := fun (c : Shell.Client) (m : list nat) => m ++ [c] in
  ShellSession._context_menu_make add_actions
    (ShellSession.run Shell.init calls) [7%nat] =
  inl [7%nat; 2%nat].
Proof.
  cbv zeta.
  destruct (context_menu_needs_client
              (fun (c : Shell.Client) (m : list nat) => m ++ [c])
              [ShellSession.SetIpyclient 1%nat; ShellSession.ClearConsole;
               ShellSession.SetIpyclient 2%nat] [7%nat]) as [_ H].
  apply (H [1%nat] 2%nat). reflexivity.
Defined.

(** ** Banners *)

Lemma append_assoc (a b c : string) :
  ((a ++ b) ++ c)%string = (a ++ (b ++ c))%string.
Proof.
  induction a as [|x a IH]; simpl; [reflexivity | now rewrite IH].
Qed.

Lemma append_nil_r (a : string) : (a ++ "")%string = a.
Proof.
  induction a as [|x a IH]; simpl; [reflexivity | now rewrite IH].
Qed.

Lemma length_append (a b : string) :
  String.length (a ++ b) = (String.length a + String.length b)%nat.
Proof.
  induction a as [|x a IH]; simpl; [reflexivity | now rewrite IH].
Qed.

Lemma prefix_append (a b : string) : String.prefix a (a ++ b) = true.
Proof.
  induction a as [|x a IH]; simpl.
  - now destruct b.
  - destruct (ascii_dec x x) as [_|E]; [exact IH | now elim E].
Qed.

Lemma contains_newline_append (a b : string) :
  Banner.contains_newline (a ++ b) =
  Banner.contains_newline a || Banner.contains_newline b.
Proof.
  induction a as [|x a IH]; simpl; [reflexivity|].
  now rewrite IH, orb_assoc.
Qed.

Lemma format_d_one_line (n : nat) :
  Banner.contains_newline (Banner.format_d n) = false.
Proof.
  unfold Banner.format_d.
  induction (Nat.to_uint n) as [|d IH|d IH|d IH|d IH|d IH|d IH|d IH|d IH|d IH
                               |d IH]; simpl; auto.
Qed.

Lemma long_banner_append (conf : Banner.Conf) (default_banner : string)
  (mpl_installed : bool) :
  let with_pylab :=
    mpl_installed && (Banner.pylab conf && Banner.pylab_autoload conf) in
  Banner.long_banner conf default_banner mpl_installed =
    (default_banner ++
     (if with_pylab then Banner.pylab_message else "") ++
     (if Banner.symbolic_math conf then Banner.sympy_lines else ""))%string /\
  String.prefix default_banner
    (Banner.long_banner conf default_banner mpl_installed) = true /\
  (Banner.long_banner conf default_banner mpl_installed = default_banner <->
   with_pylab = false /\ Banner.symbolic_math conf = false).
Proof.
  intros with_pylab.
  assert (E : Banner.long_banner conf default_banner mpl_installed =
    (default_banner ++
     (if with_pylab then Banner.pylab_message else "") ++
     (if Banner.symbolic_math conf then Banner.sympy_lines else ""))%string).
  { unfold Banner.long_banner. fold with_pylab.
    destruct with_pylab, (Banner.symbolic_math conf);
      now rewrite ?append_assoc, ?append_nil_r. }
  split; [exact E|]. split; [rewrite E; apply prefix_append|].
  rewrite E. split.
  - intros H. apply (f_equal String.length) in H.
    rewrite !length_append in H.
    destruct with_pylab, (Banner.symbolic_math conf);
      try (split; reflexivity); exfalso;
      cbn [Banner.pylab_message Banner.sympy_lines] in H;
      vm_compute (String.length (Banner.pylab_message)) in H;
      vm_compute (String.length (Banner.sympy_lines)) in H;
      simpl in H; lia.
  - intros [-> ->]. now rewrite !append_nil_r.
Qed.

(** [long_banner] is IPython's default banner followed by the pylab message
    (if matplotlib is installed and both pylab options are on) and then by
    the sympy lines (if symbolic math is on): the default banner is always
    a prefix, and the banner is the default one exactly when neither
    applies. *)
Theorem long_banner_extends (conf : Banner.Conf) (default_banner : string)
  (mpl_installed : bool) :
  let with_pylab :=
    mpl_installed && (Banner.pylab conf && Banner.pylab_autoload conf) in
  Banner.long_banner conf default_banner mpl_installed =
    (default_banner ++
     (if with_pylab then Banner.pylab_message else "") ++
     (if Banner.symbolic_math conf then Banner.sympy_lines else ""))%string /\
  String.prefix default_banner
    (Banner.long_banner conf default_banner mpl_installed) = true /\
  (Banner.long_banner conf default_banner mpl_installed = default_banner <->
   with_pylab = false /\ Banner.symbolic_math conf = false).
Proof.
  exact (@long_banner_append conf default_banner mpl_installed).
Qed.

(** The banner chosen by [_banner_default] is a single line when the
    banner option is off (provided the platform name and the qtconsole
    version are), and has several lines when the option is on and the pylab
    message or the sympy lines are added. *)
Theorem banner_default_lines (conf : Banner.Conf) (default_banner : string)
  (mpl_installed : bool) (version_info : nat * nat * nat)
  (platform version : string)
  (Hplatform : Banner.contains_newline platform = false)
  (Hversion : Banner.contains_newline version = false) :
  let banner := Banner._banner_default conf default_banner mpl_installed
                  version_info platform version in
  (Banner.show_banner conf = false -> Banner.contains_newline banner = false) /\
  (Banner.show_banner conf = true ->
   mpl_installed && (Banner.pylab conf && Banner.pylab_autoload conf) ||
   Banner.symbolic_math conf = true ->
   Banner.contains_newline banner = true).
Proof.
  cbv zeta. unfold Banner._banner_default. split.
  - intros ->. destruct version_info as [[major minor] micro].
    unfold Banner.short_banner.
    rewrite !contains_newline_append, !format_d_one_line, Hplatform, Hversion.
    reflexivity.
  - intros -> H.
    destruct (long_banner_append conf default_banner mpl_installed)
      as (E & _ & _).
    rewrite E, !contains_newline_append.
    destruct (mpl_installed &&
              (Banner.pylab conf && Banner.pylab_autoload conf)),
             (Banner.symbolic_math conf); try discriminate;
      rewrite ?orb_true_r; reflexivity.
Qed.

Lemma banner_default_lines_witness :
  let conf := Banner.mkConf false true true true in
  Banner.contains_newline
    (Banner._banner_default conf "IPython" true (3, 6, 4)%nat
                            "linux" "4.3.1") = false.
Proof.
  cbv zeta.
  destruct (@banner_default_lines (Banner.mkConf false true true true)
              "IPython" true (3, 6, 4)%nat "linux" "4.3.1"
              eq_refl eq_refl) as [H _].
  apply H. reflexivity.
Defined.

(** * A click inside the groove *)

(** With a positive groove height and value span, every pixel from the top
    to the bottom of the groove is mapped by [position_to_value] to a value
    between the minimum and the maximum plus one page step. *)
Theorem position_to_value_in_range (self : ScrollFlagArea) (y : Q)
  (Hh : (0 < groove_height (verticalScrollBar (editor self)))%Z)
  (Hspan : (0 < get_scrollbar_value_height self)%Z)
  (Hlo : inject_Z (offset self) <= y)
  (Hhi : y <= inject_Z (offset self) + get_scrollbar_position_height self) :
  exists value,
    position_to_value self y = Ok value /\
    inject_Z (minimum (verticalScrollBar (editor self))) <= value /\
    value <= inject_Z (maximum (verticalScrollBar (editor self)) +
                       pageStep (verticalScrollBar (editor self))).
Proof.
  pose proof (scale_factor_pos self Hh Hspan) as Hs.
  eexists. split; [apply position_to_value_ok; assumption|].
  unfold get_scrollbar_position_height, get_scrollbar_value_height in *.
  set (vsb := verticalScrollBar (editor self)) in *.
  assert (Hsp : inject_Z (maximum vsb - minimum vsb + pageStep vsb) ==
                inject_Z (maximum vsb + pageStep vsb) -
                inject_Z (minimum vsb)).
  { rewrite !inject_Z_plus. unfold Z.sub.
    rewrite inject_Z_plus, inject_Z_opp. ring. }
  assert (Hpos : 0 < inject_Z (maximum vsb - minimum vsb + pageStep vsb))
    by now apply inject_Z_pos.
  assert (Hh' : 0 < inject_Z (groove_height vsb)) by now apply inject_Z_pos.
  set (sp := inject_Z (maximum vsb - minimum vsb + pageStep vsb)) in *.
  set (h := inject_Z (groove_height vsb)) in *.
  set (off := inject_Z (offset self)) in *.
  assert (E : (y - off) / (h / sp) == (y - off) * sp / h).
  { field. split; intros Z0; [rewrite Z0 in Hh' | rewrite Z0 in Hpos]; lra. }
  assert (H0 : 0 <= (y - off) / (h / sp)).
  { apply Qle_shift_div_l; [exact Hs | lra]. }
  assert (H1 : (y - off) / (h / sp) <= sp).
  { rewrite E. apply Qle_shift_div_r; [exact Hh' | nra]. }
  rewrite (py_max_0_nonneg H0). split; lra.
Qed.

Lemma position_to_value_in_range_witness :
  exists value,
    position_to_value area_100_lines 516 = Ok value /\
    0 <= value /\ value <= 100.
Proof.
  apply (@position_to_value_in_range area_100_lines 516);
    first [reflexivity | vm_compute; discriminate].
Defined.
